(** * Mount-aware directory teardown of k0s ([pkg/cleanup/directories.go])

    A shallow embedding of the "remove directories" cleanup step:
    the path containment test [isUnderPath], the tolerated-error
    classifier [errorIsUnlinkat] and the step's [Run] method, together
    with the parts of the Go standard library they call
    ([path/filepath] on unix, [strings.HasPrefix], [errors.As],
    [fmt.Errorf]).

    Go strings are byte strings; they are modelled by [string].  The
    operating system (mount table, unmount system calls, recursive
    removal) is an interface, [OS], over an abstract world; [Run] threads
    the world explicitly and records every call it makes to the
    interface in a trace. *)

From Stdlib Require Import String Ascii List Bool Arith Lia ZArith.
Import ListNotations.
Open Scope string_scope.

(* ================================================================= *)
(** ** Go's [strings] and [path/filepath] (unix) *)

Module Strings.

(** [strings.HasPrefix(s, prefix)]. *)
Fixpoint HasPrefix (s pre : string) {struct pre} : bool :=
  match pre with
  | EmptyString => true
  | String a pre' =>
      match s with
      | EmptyString => false
      | String b s' => Ascii.eqb a b && HasPrefix s' pre'
      end
  end.

(** [strings.Count(s, "/")]: the number of separators in [s]. *)
Fixpoint CountSep (s : string) : nat :=
  match s with
  | EmptyString => 0
  | String c s' => (if Ascii.eqb c "/" then 1 else 0) + CountSep s'
  end.

(** [strings.Split(s, "/")]. *)
Fixpoint SplitSep (s : string) : list string :=
  match s with
  | EmptyString => [""]
  | String c s' =>
      if Ascii.eqb c "/" then "" :: SplitSep s'
      else match SplitSep s' with
           | e :: r => String c e :: r
           | [] => [String c ""]
           end
  end.

(** [strings.Join(elems, "/")]. *)
Fixpoint JoinSep (l : list string) : string :=
  match l with
  | [] => ""
  | [e] => e
  | e :: r => e ++ "/" ++ JoinSep r
  end.

End Strings.

Module Filepath.
Import Strings.

(** [filepath.IsAbs] on unix: the path begins with the separator. *)
Definition IsAbs (path : string) : bool := HasPrefix path "/".

(** One turn of the loop of [filepath.Clean] over the path element [e];
    [out] is the output buffer as a stack of elements, last written
    first.  An empty element and [.] are dropped; [..] removes the last
    real element when there is one ([out.w > dotdot]), is dropped at the
    root, and is appended to a relative path that cannot backtrack. *)
Definition cleanStep (rooted : bool) (out : list string) (e : string)
  : list string :=
  if (e =? "") || (e =? ".") then out
  else if e =? ".." then
    match out with
    | top :: out' =>
        if top =? ".." then (if rooted then out else ".." :: out)
        else out'
    | [] => if rooted then [] else [".."]
    end
  else e :: out.

(** [filepath.Clean] on unix (no volume name, separator [/]). *)
Definition Clean (path : string) : string :=
  if path =? "" then "."
  else
    let rooted := HasPrefix path "/" in
    let out := rev (fold_left (cleanStep rooted) (SplitSep path) []) in
    let r := (if rooted then "/" else "") ++ JoinSep out in
    if r =? "" then "." else r.

(** [filepath.Join]: the elements from the first non-empty one on are
    joined with the separator and cleaned; the result is empty when
    every element is. *)
Fixpoint Join (elem : list string) : string :=
  match elem with
  | [] => ""
  | e :: r => if e =? "" then Join r else Clean (JoinSep elem)
  end.

(** The path element at the start of [s] and what follows its
    separator: the two inner loops of [filepath.Rel] that advance
    [bi] and [ti] to the next separator and then step over it. *)
Fixpoint cutElem (s : string) : string * string :=
  match s with
  | EmptyString => ("", "")
  | String c s' =>
      if Ascii.eqb c "/" then ("", s')
      else let (e, r) := cutElem s' in (String c e, r)
  end.

(** The main loop of [filepath.Rel]: [b] is [base[b0:]] and [t] is
    [targ[t0:]].  It returns [base[b0:bi]], [base[b0:]] and
    [targ[t0:]] at the loop's exit.  Every turn that continues
    shortens [b], so [S (length base)] turns are enough. *)
Fixpoint relLoop (fuel : nat) (b t : string) : string * string * string :=
  match fuel with
  | 0 => ("", b, t)
  | S fuel' =>
      if (b =? "") || (t =? "") then ("", b, t)
      else
        let (be, b') := cutElem b in
        let (te, t') := cutElem t in
        if te =? be then relLoop fuel' b' t' else (be, b, t)
  end.

(** [n] copies of ["/.."]. *)
Fixpoint upDirs (n : nat) : string :=
  match n with
  | 0 => ""
  | S n' => "/.." ++ upDirs n'
  end.

(** [filepath.Rel] on unix; [None] is the error "can't make targpath
    relative to basepath".  The loop ends as soon as either path is used
    up: for a relative base whose next element is then [..], as in
    [Rel("../..", "..")], Go reports an error where this model returns a
    path beginning with [..]; [isUnderPath] answers false either way. *)
Definition Rel (basepath targpath : string) : option string :=
  let base := Clean basepath in
  let targ := Clean targpath in
  if targ =? base then Some "."
  else
    let base := if base =? "." then "" else base in
    let baseSlashed := HasPrefix base "/" in
    let targSlashed := HasPrefix targ "/" in
    if negb (Bool.eqb baseSlashed targSlashed) then None
    else
      match relLoop (S (String.length base)) base targ with
      | (cur, brest, trest) =>
          if cur =? ".." then None
          else if negb (brest =? "") then
            Some (".." ++ upDirs (CountSep brest)
                    ++ (if negb (trest =? "") then "/" ++ trest else ""))
          else Some trest
      end.

(** [filepath.Dir] on unix: everything up to and including the last
    separator, cleaned. *)
Fixpoint dirPart (s : string) : string :=
  match s with
  | EmptyString => ""
  | String c s' =>
      let d := dirPart s' in
      if d =? "" then (if Ascii.eqb c "/" then "/" else "")
      else String c d
  end.

Definition Dir (path : string) : string := Clean (dirPart path).

End Filepath.

(* ================================================================= *)
(** ** The containment test of [directories.go] *)

(** [isUnderPath(path, base)]: "test if the path is a directory equal to
    or under base". *)
Definition isUnderPath (path base : string) : bool :=
  match Filepath.Rel base path with
  | Some rel => negb (Strings.HasPrefix rel "..") && negb (Filepath.IsAbs rel)
  | None => false
  end.

(** A path element that names a file or directory: not empty, neither
    [.] nor [..], and without a separator. *)
Definition isComponent (x : string) : bool :=
  negb (x =? "") && negb (x =? ".") && negb (x =? "..")
  && (Strings.CountSep x =? 0)%nat.

(** [e] holds no separator. *)
Definition noSep (e : string) : Prop := Strings.CountSep e = 0.

(** The absolute path with the elements [cs]: ["/"] for none, and
    [/c1/.../cn] otherwise. *)
Definition absPath (cs : list string) : string := "/" ++ Strings.JoinSep cs.

(** [s] behind the elements [K], each followed by a separator. *)
Fixpoint behind (K : list string) (s : string) : string :=
  match K with
  | [] => s
  | e :: K' => e ++ String "/" (behind K' s)
  end.

(* ================================================================= *)
(** ** Go errors *)

(** Error values as far as this step can tell them apart: an error
    without [Unwrap] ([errors.New], [fmt.Errorf] without [%w], a
    [syscall.Errno]), an error wrapping another ([fmt.Errorf] with
    [%w]; [msg] is the formatted message), an [*os.PathError] with its
    [Op], [Path] and [Err] fields, and an error with several causes
    ([errors.Join]).  A nil error is [None] of [option error]. *)
#[local] Unset Elimination Schemes.
Inductive error : Type :=
| errorString (s : string)
| wrapError (msg : string) (err : error)
| PathError (Op Path : string) (Err : error)
| joinError (errs : list error).
#[local] Set Elimination Schemes.

(** Induction over errors, through the causes of a joined error. *)
Section ErrorInd.
Variable P : error -> Prop.
Hypothesis HerrorString : forall s, P (errorString s).
Hypothesis HwrapError : forall msg err, P err -> P (wrapError msg err).
Hypothesis HPathError : forall op path err, P err -> P (PathError op path err).
Hypothesis HjoinError : forall errs, Forall P errs -> P (joinError errs).

Fixpoint error_ind (err : error) : P err :=
  match err with
  | errorString s => HerrorString s
  | wrapError msg inner => HwrapError msg inner (error_ind inner)
  | PathError op path inner => HPathError op path inner (error_ind inner)
  | joinError errs =>
      HjoinError errs
        ((fix all (l : list error) : Forall P l :=
            match l with
            | [] => Forall_nil P
            | e :: l' => Forall_cons e (error_ind e) (all l')
            end) errs)
  end.
End ErrorInd.

Module Errors.

(** [errors.As(err, &pathErr)] for [pathErr] of type [*os.PathError]:
    the first path error met when the chain of [err] is unwrapped,
    depth first through joined errors. *)
Fixpoint AsPathError (err : error) : option (string * string * error) :=
  match err with
  | errorString _ => None
  | wrapError _ inner => AsPathError inner
  | PathError op path inner => Some (op, path, inner)
  | joinError errs =>
      (fix first (l : list error) : option (string * string * error) :=
         match l with
         | [] => None
         | e :: l' =>
             match AsPathError e with
             | Some pe => Some pe
             | None => first l'
             end
         end) errs
  end.

(** Whether an [*os.PathError] occurs anywhere in the chain of [err]. *)
Fixpoint hasPathError (err : error) : bool :=
  match err with
  | errorString _ => false
  | wrapError _ inner => hasPathError inner
  | PathError _ _ _ => true
  | joinError errs =>
      (fix any (l : list error) : bool :=
         match l with
         | [] => false
         | e :: l' => hasPathError e || any l'
         end) errs
  end.

(** The [Error()] method. *)
Fixpoint Error (err : error) : string :=
  match err with
  | errorString s => s
  | wrapError msg _ => msg
  | PathError op path inner => op ++ " " ++ path ++ ": " ++ Error inner
  | joinError errs =>
      (fix lines (l : list error) : string :=
         match l with
         | [] => ""
         | [e] => Error e
         | e :: l' => Error e ++ String "010" (lines l')
         end) errs
  end.

(** [fmt.Errorf(format + ": %w", err)] with [prefix] the text formatted
    before the colon. *)
Definition Errorf_w (prefix : string) (err : error) : error :=
  wrapError (prefix ++ ": " ++ Error err) err.

(** [n] layers of [fmt.Errorf("...%w", err)] around [err]. *)
Fixpoint wrapMany (msgs : list string) (err : error) : error :=
  match msgs with
  | [] => err
  | m :: ms => wrapError m (wrapMany ms err)
  end.

End Errors.

(** [errorIsUnlinkat(err, dir)]: whether the error returned by
    [os.RemoveAll] is due to [dir] being a mount point. *)
Definition errorIsUnlinkat (err : option error) (dir : string) : bool :=
  match err with
  | None => false
  | Some e =>
      match Errors.AsPathError e with
      | None => false
      | Some (op, path, _) => (path =? dir) && (op =? "unlinkat")
      end
  end.

(* ================================================================= *)
(** ** The operating system as seen by the step *)

(** [mount.MountPoint] of [k8s.io/mount-utils]. *)
Record MountPoint : Type := {
  Device : string;
  Path : string;
  Type_ : string;
  Opts : list string;
  Freq : Z;
  Pass : Z
}.

(** [config.CfgVars] and the cleanup [Config], with the fields this step
    reads: [d.Config.dataDir], [d.Config.runDir] and
    [d.Config.k0sVars.DataDir]. *)
Record CfgVars : Type := { DataDir : string }.

Record Config : Type := {
  dataDir : string;
  runDir : string;
  k0sVars : CfgVars
}.

(** The calls [Run] makes outside the package: [mounter.List()] and
    [mounter.Unmount(path)] of the mounter obtained from [mount.New("")],
    the package's [UnmountLazy(path)] and [os.RemoveAll(path)].  Each
    returns its error ([None] for nil) and the world it leaves behind;
    listing the mounts only reads. *)
Class OS (World : Type) : Type := {
  mounter_List : World -> error + list MountPoint;
  mounter_Unmount : string -> World -> option error * World;
  UnmountLazy : string -> World -> option error * World;
  os_RemoveAll : string -> World -> option error * World
}.

(** What [os.RemoveAll] documents for a path that is not there: "If the
    path does not exist, RemoveAll returns nil (no error)", and nothing
    changes. *)
Class RemoveAllAbsent (World : Type) {os : OS World} : Type := {
  pathExists : string -> World -> bool;
  RemoveAll_absent :
    forall p w, pathExists p w = false -> os_RemoveAll p w = (None, w)
}.

(** One call of the interface, with what it returned. *)
Inductive event : Type :=
| EvList (r : error + list MountPoint)
| EvUnmount (path : string) (r : option error)
| EvUnmountLazy (path : string) (r : option error)
| EvRemoveAll (path : string) (r : option error).

(** A computation over the world that records its calls. *)
Definition Eff (World A : Type) : Type := World -> A * World * list event.

Definition ret {World A : Type} (a : A) : Eff World A :=
  fun w => (a, w, []).

Definition bind {World A B : Type} (m : Eff World A) (k : A -> Eff World B)
  : Eff World B :=
  fun w =>
    match m w with
    | (a, w1, t1) =>
        match k a w1 with
        | (b, w2, t2) => (b, w2, (t1 ++ t2)%list)
        end
    end.

Declare Scope eff_scope.
Delimit Scope eff_scope with eff.
Notation "x <- m ;; k" := (bind m (fun x => k))
  (at level 61, m at next level, right associativity) : eff_scope.

Definition result {World A : Type} (r : A * World * list event) : A :=
  fst (fst r).
Definition world {World A : Type} (r : A * World * list event) : World :=
  snd (fst r).
Definition trace {World A : Type} (r : A * World * list event) : list event :=
  snd r.

Section Step.
Context {World : Type} {os : OS World}.
Open Scope eff_scope.

Definition callList : Eff World (error + list MountPoint) :=
  fun w => let r := mounter_List w in (r, w, [EvList r]).

Definition callUnmount (path : string) : Eff World (option error) :=
  fun w => let (r, w') := mounter_Unmount path w in (r, w', [EvUnmount path r]).

Definition callUnmountLazy (path : string) : Eff World (option error) :=
  fun w => let (r, w') := UnmountLazy path w in (r, w', [EvUnmountLazy path r]).

Definition callRemoveAll (path : string) : Eff World (option error) :=
  fun w => let (r, w') := os_RemoveAll path w in (r, w', [EvRemoveAll path r]).

(** The [for] loop of [Run] over the records still to visit, in the
    order the loop visits them: [inl err] when the loop returns [err]
    from [Run], [inr dataDirMounted] when it runs to its end. *)
Fixpoint unmountLoop (cfg : Config) (todo : list MountPoint)
    (dataDirMounted : bool) : Eff World (error + bool) :=
  match todo with
  | [] => ret (inr dataDirMounted)
  | v :: todo' =>
      if Path v =? DataDir (k0sVars cfg) then
        unmountLoop cfg todo' true
      else if isUnderPath (Path v) (Filepath.Join [dataDir cfg; "kubelet"])
              || isUnderPath (Path v) (DataDir (k0sVars cfg)) then
        err <- callUnmount (Path v) ;;
        match err with
        | Some _ =>
            err <- callUnmountLazy (Path v) ;;
            match err with
            | Some _ => ret (inl (errorString ("failed unmount " ++ Path v)))
            | None => unmountLoop cfg todo' dataDirMounted
            end
        | None => unmountLoop cfg todo' dataDirMounted
        end
      else unmountLoop cfg todo' dataDirMounted
  end.

(** The deletion of the run directory that ends [Run]. *)
Definition removeRunDir (cfg : Config) : Eff World (option error) :=
  err <- callRemoveAll (runDir cfg) ;;
  match err with
  | Some e => ret (Some (Errors.Errorf_w ("failed to delete " ++ runDir cfg) e))
  | None => ret None
  end.

(** The deletion of the data directory and what follows it. *)
Definition removeDirs (cfg : Config) (dataDirMounted : bool)
  : Eff World (option error) :=
  err <- callRemoveAll (dataDir cfg) ;;
  match err with
  | Some e =>
      if negb dataDirMounted then
        ret (Some (Errors.Errorf_w "failed to delete k0s generated data-dir" e))
      else if negb (errorIsUnlinkat (Some e) (dataDir cfg)) then
        ret (Some (Errors.Errorf_w
                     "failed to delete contents of mounted data-dir" e))
      else removeRunDir cfg
  | None => removeRunDir cfg
  end.

(** The method [Run] of [directories]: the error it returns ([None] for nil). *)
Definition Run (cfg : Config) : Eff World (option error) :=
  procMounts <- callList ;;
  match procMounts with
  | inl err => ret (Some err)
  | inr procMounts =>
      r <- unmountLoop cfg (rev procMounts) false ;;
      match r with
      | inl err => ret (Some err)
      | inr dataDirMounted => removeDirs cfg dataDirMounted
      end
  end.

End Step.

(* ================================================================= *)
(** ** What the loop decides for a record, and what a trace shows *)

(** The three ways the loop of [Run] treats a mount record. *)
Inductive OwnershipDecision : Type :=
| IsDataDirRoot
| OwnedUnderKubeletOrDataDir
| Unrelated.

(** The two tests of the loop body, in the order the loop makes them. *)
Definition classify (cfg : Config) (v : MountPoint) : OwnershipDecision :=
  if Path v =? DataDir (k0sVars cfg) then IsDataDirRoot
  else if isUnderPath (Path v) (Filepath.Join [dataDir cfg; "kubelet"])
          || isUnderPath (Path v) (DataDir (k0sVars cfg))
       then OwnedUnderKubeletOrDataDir
       else Unrelated.

Definition owned (cfg : Config) (v : MountPoint) : bool :=
  match classify cfg v with
  | OwnedUnderKubeletOrDataDir => true
  | _ => false
  end.

Definition isDataDirRoot (cfg : Config) (v : MountPoint) : bool :=
  Path v =? DataDir (k0sVars cfg).

(** The paths of the normal unmounts of a trace, in the order they were
    attempted. *)
Fixpoint attempts (t : list event) : list string :=
  match t with
  | [] => []
  | EvUnmount p _ :: t' => p :: attempts t'
  | _ :: t' => attempts t'
  end.

Definition isRemoveAll (ev : event) : bool :=
  match ev with
  | EvRemoveAll _ _ => true
  | _ => false
  end.

Definition isUnmountOf (path : string) (ev : event) : bool :=
  match ev with
  | EvUnmount p _ | EvUnmountLazy p _ => p =? path
  | _ => false
  end.

(** The deletion of the data directory lets [Run] go on: it succeeded,
    or the data directory is mounted and the failure is the unlinking of
    the data directory itself. *)
Definition dataDirDone (flag : bool) (r : option error) (dir : string) : bool :=
  match r with
  | None => true
  | Some e => flag && errorIsUnlinkat (Some e) dir
  end.

Definition isUnmount (ev : event) : bool :=
  match ev with
  | EvUnmount _ _ | EvUnmountLazy _ _ => true
  | _ => false
  end.

(** The call recorded by [ev] returned an error. *)
Definition evFailed (ev : event) : bool :=
  match ev with
  | EvList (inl _) => true
  | EvList (inr _) => false
  | EvUnmount _ r | EvUnmountLazy _ r | EvRemoveAll _ r =>
      match r with Some _ => true | None => false end
  end.

(** The method [Name] of [directories]. *)
Definition Name : string := "remove directories step".

(** The elements [filepath.Clean] keeps of an absolute path. *)
Definition pathElems (p : string) : list string :=
  rev (fold_left (Filepath.cleanStep true) (Strings.SplitSep p) []).

(** Containment read element by element: the elements [bs] of the base
    begin the elements [ts] of the path, and the element of the path that
    follows them, if any, does not begin with two dots. *)
Fixpoint underElems (bs ts : list string) : bool :=
  match bs, ts with
  | [], [] => true
  | [], x :: _ => negb (Strings.HasPrefix x "..")
  | b :: bs', t :: ts' => (b =? t) && underElems bs' ts'
  | _ :: _, [] => false
  end.

(** Ownership read off the two data-directory paths alone: the mount
    path [p] is absolute, is not spelled as [k0sDataDir], and its cleaned
    elements continue those of [dataDir] followed by [kubelet], or those
    of [k0sDataDir]. *)
Definition ownedByElems (dataDir k0sDataDir p : string) : bool :=
  negb (p =? k0sDataDir) && Filepath.IsAbs p
  && (underElems (pathElems dataDir ++ ["kubelet"]) (pathElems p)
      || underElems (pathElems k0sDataDir) (pathElems p)).

(** [l1] is an initial segment of [l2]. *)
Definition isPrefixOf {A : Type} (l1 l2 : list A) : Prop :=
  exists rest, l2 = (l1 ++ rest)%list.

Section LoopRuns.
Context {World : Type} {os : OS World}.
Variable cfg : Config.

(** The runs of the loop, one rule per path through its body:
    [loopRun todo flag w r w' t] when the loop, started on the records
    [todo] with [dataDirMounted = flag] in world [w], ends with [r] in
    world [w'] after the calls [t]. *)
Inductive loopRun : list MountPoint -> bool -> World ->
                    error + bool -> World -> list event -> Prop :=
| run_end flag w :
    loopRun [] flag w (inr flag) w []
| run_root v todo flag w r w' t :
    classify cfg v = IsDataDirRoot ->
    loopRun todo true w r w' t ->
    loopRun (v :: todo) flag w r w' t
| run_unrelated v todo flag w r w' t :
    classify cfg v = Unrelated ->
    loopRun todo flag w r w' t ->
    loopRun (v :: todo) flag w r w' t
| run_unmount v todo flag w w1 r w' t :
    classify cfg v = OwnedUnderKubeletOrDataDir ->
    mounter_Unmount (Path v) w = (None, w1) ->
    loopRun todo flag w1 r w' t ->
    loopRun (v :: todo) flag w r w' (EvUnmount (Path v) None :: t)
| run_lazy v todo flag w e1 w1 w2 r w' t :
    classify cfg v = OwnedUnderKubeletOrDataDir ->
    mounter_Unmount (Path v) w = (Some e1, w1) ->
    UnmountLazy (Path v) w1 = (None, w2) ->
    loopRun todo flag w2 r w' t ->
    loopRun (v :: todo) flag w r w'
      (EvUnmount (Path v) (Some e1) :: EvUnmountLazy (Path v) None :: t)
| run_abort v todo flag w e1 w1 e2 w2 :
    classify cfg v = OwnedUnderKubeletOrDataDir ->
    mounter_Unmount (Path v) w = (Some e1, w1) ->
    UnmountLazy (Path v) w1 = (Some e2, w2) ->
    loopRun (v :: todo) flag w
      (inl (errorString ("failed unmount " ++ Path v))) w2
      [EvUnmount (Path v) (Some e1); EvUnmountLazy (Path v) (Some e2)].

End LoopRuns.

(* ================================================================= *)
(** ** An in-memory operating system *)

Module Fake.

(** A mount table, the paths that exist, and the mount points whose
    normal unmount ([busy]) or lazy unmount ([stuck]) fails. *)
Record FakeWorld : Type := {
  mounts : list MountPoint;
  files : list string;
  busy : list string;
  stuck : list string
}.

Definition mkMount (path : string) : MountPoint :=
  {| Device := "/dev/sda1"; Path := path; Type_ := "ext4";
     Opts := ["rw"]; Freq := 0%Z; Pass := 0%Z |}.

Definition EBUSY : error := errorString "device or resource busy".
Definition EINVAL : error := errorString "invalid argument".

Definition mem (p : string) (l : list string) : bool :=
  existsb (String.eqb p) l.

(** The table without its most recent mount on [p]. *)
Fixpoint dropLast (p : string) (l : list MountPoint) : list MountPoint :=
  match l with
  | [] => []
  | m :: l' =>
      if existsb (fun m' => Path m' =? p) l' then m :: dropLast p l'
      else if Path m =? p then l' else m :: l'
  end.

Definition detach (p : string) (w : FakeWorld) : option error * FakeWorld :=
  if existsb (fun m => Path m =? p) (mounts w) then
    (None, {| mounts := dropLast p (mounts w); files := files w;
              busy := busy w; stuck := stuck w |})
  else (Some EINVAL, w).

Definition unmount (p : string) (w : FakeWorld) : option error * FakeWorld :=
  if mem p (busy w) then (Some EBUSY, w) else detach p w.

Definition unmountLazy (p : string) (w : FakeWorld)
  : option error * FakeWorld :=
  if mem p (stuck w) then (Some EBUSY, w) else detach p w.

(** [q] lies strictly below the directory [p]. *)
Definition below (p q : string) : bool := Strings.HasPrefix q (p ++ "/").

(** Removing [p] and what it contains.  Nothing to do when nothing is
    there; a mount point below [p] stops the removal; when [p] itself is
    a mount point its contents go and unlinking [p] fails. *)
Definition removeAll (p : string) (w : FakeWorld)
  : option error * FakeWorld :=
  if negb (existsb (fun q => (q =? p) || below p q) (files w))
  then (None, w)
  else
    match filter (fun m => below p (Path m)) (mounts w) with
    | m :: _ => (Some (PathError "unlinkat" (Path m) EBUSY), w)
    | [] =>
        if existsb (fun m => Path m =? p) (mounts w) then
          (Some (PathError "unlinkat" p EBUSY),
           {| mounts := mounts w;
              files := filter (fun q => negb (below p q)) (files w);
              busy := busy w; stuck := stuck w |})
        else
          (None,
           {| mounts := mounts w;
              files := filter (fun q => negb ((q =? p) || below p q))
                         (files w);
              busy := busy w; stuck := stuck w |})
    end.

#[global] Instance fakeOS : OS FakeWorld := {
  mounter_List := fun w => inr (mounts w);
  mounter_Unmount := unmount;
  UnmountLazy := unmountLazy;
  os_RemoveAll := removeAll
}.

Definition present (p : string) (w : FakeWorld) : bool :=
  existsb (fun q => (q =? p) || below p q) (files w).

#[global] Instance fakeRemoveAllAbsent : RemoveAllAbsent FakeWorld.
Proof.
  refine {| pathExists := present |}.
  intros p w H. simpl. unfold removeAll. fold (present p w).
  rewrite H. reflexivity.
Defined.

(** A node with its data directory [/data] on a partition of its own and
    two kubelet mounts nested in it. *)
Definition cfg : Config :=
  {| dataDir := "/data"; runDir := "/run/k0s";
     k0sVars := {| DataDir := "/data" |} |}.

Definition nested : list MountPoint :=
  [mkMount "/data"; mkMount "/data/kubelet"; mkMount "/data/kubelet/pods/x"].

Definition node (busy stuck : list string) : FakeWorld :=
  {| mounts := mkMount "/" :: nested;
     files := ["/data"; "/data/kubelet"; "/data/kubelet/pods/x";
               "/data/db"; "/run/k0s"; "/run/k0s/status.sock"; "/etc/hosts"];
     busy := busy; stuck := stuck |}.

(** The same operating system with a mount table that cannot be read. *)
Definition EACCES : error :=
  PathError "open" "/proc/mounts" (errorString "permission denied").

Definition unreadableOS : OS FakeWorld := {|
  mounter_List := fun _ => inl EACCES;
  mounter_Unmount := unmount;
  UnmountLazy := unmountLazy;
  os_RemoveAll := removeAll
|}.

(** A node whose data directory [/data] and state directory [/srv/k0s]
    differ, with mounts below both. *)
Definition splitCfg : Config :=
  {| dataDir := "/data"; runDir := "/run/k0s";
     k0sVars := {| DataDir := "/srv/k0s" |} |}.

Definition splitNode : FakeWorld :=
  {| mounts := [mkMount "/"; mkMount "/data/db";
                mkMount "/data/kubelet/pods/x"; mkMount "/srv/k0s/containerd"];
     files := ["/data"; "/data/db"; "/data/kubelet/pods/x"; "/srv/k0s";
               "/srv/k0s/containerd"; "/run/k0s"];
     busy := []; stuck := [] |}.

(** A node whose data directory is an ordinary directory. *)
Definition plainNode : FakeWorld :=
  {| mounts := [mkMount "/"; mkMount "/data/kubelet";
                mkMount "/data/kubelet/pods/x"];
     files := ["/data"; "/data/kubelet"; "/data/kubelet/pods/x";
               "/data/db"; "/run/k0s"; "/run/k0s/status.sock"; "/etc/hosts"];
     busy := []; stuck := [] |}.

End Fake.

(* ================================================================= *)
(** ** Strings *)

Lemma length_append (s1 s2 : string) :
  String.length (s1 ++ s2) = String.length s1 + String.length s2.
Proof.
  induction s1 as [| c s1 IH]; simpl; [reflexivity | now rewrite IH].
Qed.

Lemma append_assoc (s1 s2 s3 : string) :
  (s1 ++ s2) ++ s3 = s1 ++ (s2 ++ s3).
Proof.
  induction s1 as [| c s1 IH]; simpl; [reflexivity | now rewrite IH].
Qed.

Lemma append_empty_r (s : string) : s ++ "" = s.
Proof.
  induction s as [| c s IH]; simpl; [reflexivity | now rewrite IH].
Qed.

(** Rows of the tables of the Go library's own tests for [Clean] and
    [Rel], and the join of line 72. *)
Example Clean_rows :
  Filepath.Clean "" = "." /\
  Filepath.Clean "abc//def//ghi" = "abc/def/ghi" /\
  Filepath.Clean "abc/def/../ghi/../jkl" = "abc/jkl" /\
  Filepath.Clean "abc/./../def" = "def" /\
  Filepath.Clean "abc/def/../../.." = ".." /\
  Filepath.Clean "/abc/def/../../.." = "/" /\
  Filepath.Clean "/../abc" = "/abc" /\
  Filepath.Clean "../../abc" = "../../abc" /\
  Filepath.Clean "abc/" = "abc" /\
  Filepath.Clean "///" = "/".
Proof. repeat split. Qed.

Example Rel_rows :
  Filepath.Rel "a/b" "a/b" = Some "." /\
  Filepath.Rel "a/b" "a/b/c/d" = Some "c/d" /\
  Filepath.Rel "ab/cd" "ab/cde" = Some "../cde" /\
  Filepath.Rel "a/b/../c" "a/b" = Some "../b" /\
  Filepath.Rel "/a/b/c" "/a/c/d" = Some "../../c/d" /\
  Filepath.Rel "/a/b" "/c/d" = Some "../../c/d" /\
  Filepath.Rel "/a/b/c/d/" "/a/b/" = Some "../.." /\
  Filepath.Rel "." "a/b" = Some "a/b" /\
  Filepath.Rel "." ".." = Some ".." /\
  Filepath.Rel ".." "." = None /\
  Filepath.Rel ".." "a" = None /\
  Filepath.Rel "a" "/a" = None /\
  Filepath.Rel "/a" "a" = None.
Proof. repeat split. Qed.

Example Join_kubelet :
  Filepath.Join ["/var/lib/k0s"; "kubelet"] = "/var/lib/k0s/kubelet" /\
  Filepath.Join ["/var/lib/k0s/"; "kubelet"] = "/var/lib/k0s/kubelet" /\
  Filepath.Join [""; "kubelet"] = "kubelet".
Proof. repeat split. Qed.

(** The sibling [/data2] of the data directory [/data] is left alone, and
    so is what lies above it. *)
Example isUnderPath_rows :
  isUnderPath "/data" "/data" = true /\
  isUnderPath "/data/kubelet/pods/x" "/data" = true /\
  isUnderPath "/data/" "/data" = true /\
  isUnderPath "/data2" "/data" = false /\
  isUnderPath "/" "/data" = false /\
  isUnderPath "/data/../etc" "/data" = false /\
  isUnderPath "data" "/data" = false.
Proof. repeat split. Qed.

(* ================================================================= *)
(** ** The loop of [Run] and its runs *)

Section LoopFacts.
Context {World : Type} {os : OS World}.
Variable cfg : Config.

Lemma classify_root (v : MountPoint) :
  classify cfg v = IsDataDirRoot <-> Path v = DataDir (k0sVars cfg).
Proof.
  unfold classify.
  destruct (String.eqb_spec (Path v) (DataDir (k0sVars cfg))) as [E | E].
  - tauto.
  - destruct (_ || _); split; intro H; congruence.
Qed.

Lemma owned_classify (v : MountPoint) :
  owned cfg v = true <-> classify cfg v = OwnedUnderKubeletOrDataDir.
Proof.
  unfold owned. destruct (classify cfg v); split; congruence.
Qed.

(** The loop body on a record equal to the data directory. *)
Lemma unmountLoop_root (v : MountPoint) todo flag (w : World) :
  classify cfg v = IsDataDirRoot ->
  unmountLoop cfg (v :: todo) flag w = unmountLoop cfg todo true w.
Proof.
  intro H. apply classify_root in H. simpl.
  rewrite H, String.eqb_refl. reflexivity.
Qed.

(** The loop body on a record outside the managed directories. *)
Lemma unmountLoop_unrelated (v : MountPoint) todo flag (w : World) :
  classify cfg v = Unrelated ->
  unmountLoop cfg (v :: todo) flag w = unmountLoop cfg todo flag w.
Proof.
  unfold classify. simpl.
  destruct (Path v =? DataDir (k0sVars cfg)); [discriminate |].
  destruct (_ || _); [discriminate | reflexivity].
Qed.

(** The loop body on an owned record, by the outcome of its unmounts. *)
Lemma unmountLoop_owned (v : MountPoint) todo flag (w : World) :
  classify cfg v = OwnedUnderKubeletOrDataDir ->
  unmountLoop cfg (v :: todo) flag w =
  match mounter_Unmount (Path v) w with
  | (None, w1) =>
      match unmountLoop cfg todo flag w1 with
      | (r, w', t) => (r, w', EvUnmount (Path v) None :: t)
      end
  | (Some e1, w1) =>
      match UnmountLazy (Path v) w1 with
      | (None, w2) =>
          match unmountLoop cfg todo flag w2 with
          | (r, w', t) =>
              (r, w', EvUnmount (Path v) (Some e1)
                        :: EvUnmountLazy (Path v) None :: t)
          end
      | (Some e2, w2) =>
          (inl (errorString ("failed unmount " ++ Path v)), w2,
           [EvUnmount (Path v) (Some e1); EvUnmountLazy (Path v) (Some e2)])
      end
  end.
Proof.
  unfold classify. simpl.
  destruct (Path v =? DataDir (k0sVars cfg)); [discriminate |].
  destruct (_ || _); [intros _ | discriminate].
  unfold bind, callUnmount, callUnmountLazy, ret.
  destruct (mounter_Unmount (Path v) w) as [[e1 |] w1].
  - destruct (UnmountLazy (Path v) w1) as [[e2 |] w2]; [reflexivity |].
    destruct (unmountLoop cfg todo flag w2) as [[r w'] t]. reflexivity.
  - destruct (unmountLoop cfg todo flag w1) as [[r w'] t]. reflexivity.
Qed.

(** Every execution of the loop is one of its runs. *)
Lemma unmountLoop_run todo : forall flag (w : World),
  loopRun cfg todo flag w
    (result (unmountLoop cfg todo flag w))
    (world (unmountLoop cfg todo flag w))
    (trace (unmountLoop cfg todo flag w)).
Proof.
  induction todo as [| v todo IH]; intros flag w.
  - apply run_end.
  - destruct (classify cfg v) eqn:C.
    + rewrite (unmountLoop_root _ _ _ _ C). now apply run_root.
    + rewrite (unmountLoop_owned _ _ _ _ C).
      destruct (mounter_Unmount (Path v) w) as [[e1 |] w1] eqn:U.
      * destruct (UnmountLazy (Path v) w1) as [[e2 |] w2] eqn:L.
        -- eapply run_abort; eassumption.
        -- specialize (IH flag w2).
           destruct (unmountLoop cfg todo flag w2) as [[r w'] t].
           eapply run_lazy; eassumption.
      * specialize (IH flag w1).
        destruct (unmountLoop cfg todo flag w1) as [[r w'] t].
        eapply run_unmount; eassumption.
    + rewrite (unmountLoop_unrelated _ _ _ _ C). now apply run_unrelated.
Qed.

Lemma unmountLoop_run_eq todo flag (w : World) r w' t :
  unmountLoop cfg todo flag w = (r, w', t) -> loopRun cfg todo flag w r w' t.
Proof.
  intro E. pose proof (unmountLoop_run todo flag w) as H.
  rewrite E in H. exact H.
Qed.

(** The flag at the end of a completed run. *)
Lemma loopRun_flag todo flag (w : World) r w' t :
  loopRun cfg todo flag w r w' t ->
  forall b, r = inr b -> b = flag || existsb (isDataDirRoot cfg) todo.
Proof.
  induction 1 as [flag w | v todo flag w r w' t C _ IH
                  | v todo flag w r w' t C _ IH
                  | v todo flag w w1 r w' t C U _ IH
                  | v todo flag w e1 w1 w2 r w' t C U L _ IH
                  | v todo flag w e1 w1 e2 w2 C U L ];
    intros b E; simpl.
  - injection E as <-. now rewrite orb_false_r.
  - apply classify_root in C. unfold isDataDirRoot at 1.
    rewrite C, String.eqb_refl. rewrite (IH b E). simpl.
    now rewrite orb_true_r.
  - rewrite (IH b E). f_equal. unfold isDataDirRoot at 2.
    destruct (String.eqb_spec (Path v) (DataDir (k0sVars cfg))) as [P | P];
      [| reflexivity].
    apply classify_root in P. congruence.
  - rewrite (IH b E). f_equal. unfold isDataDirRoot at 2.
    destruct (String.eqb_spec (Path v) (DataDir (k0sVars cfg))) as [P | P];
      [| reflexivity].
    apply classify_root in P. congruence.
  - rewrite (IH b E). f_equal. unfold isDataDirRoot at 2.
    destruct (String.eqb_spec (Path v) (DataDir (k0sVars cfg))) as [P | P];
      [| reflexivity].
    apply classify_root in P. congruence.
  - discriminate.
Qed.

(** A run only calls the two unmounts, and only on owned records of its
    list. *)
Lemma loopRun_events todo flag (w : World) r w' t :
  loopRun cfg todo flag w r w' t ->
  forall ev, In ev t ->
    exists v res, In v todo /\ owned cfg v = true /\
      (ev = EvUnmount (Path v) res \/ ev = EvUnmountLazy (Path v) res).
Proof.
  induction 1 as [flag w | v todo flag w r w' t C _ IH
                  | v todo flag w r w' t C _ IH
                  | v todo flag w w1 r w' t C U _ IH
                  | v todo flag w e1 w1 w2 r w' t C U L _ IH
                  | v todo flag w e1 w1 e2 w2 C U L ];
    intros ev I; simpl in I.
  - contradiction.
  - destruct (IH ev I) as (u & res & ? & ? & ?).
    exists u, res. simpl. tauto.
  - destruct (IH ev I) as (u & res & ? & ? & ?).
    exists u, res. simpl. tauto.
  - apply owned_classify in C. destruct I as [<- | I].
    + exists v, None. simpl. tauto.
    + destruct (IH ev I) as (u & res & ? & ? & ?).
      exists u, res. simpl. tauto.
  - apply owned_classify in C. destruct I as [<- | [<- | I]].
    + exists v, (Some e1). simpl. tauto.
    + exists v, None. simpl. tauto.
    + destruct (IH ev I) as (u & res & ? & ? & ?).
      exists u, res. simpl. tauto.
  - apply owned_classify in C. destruct I as [<- | [<- | []]].
    + exists v, (Some e1). simpl. tauto.
    + exists v, (Some e2). simpl. tauto.
Qed.

(** A failed lazy unmount ends the run with the error naming its path. *)
Lemma loopRun_lazy_failed todo flag (w : World) r w' t :
  loopRun cfg todo flag w r w' t ->
  forall p e, In (EvUnmountLazy p (Some e)) t ->
    r = inl (errorString ("failed unmount " ++ p)).
Proof.
  induction 1 as [flag w | v todo flag w r w' t C _ IH
                  | v todo flag w r w' t C _ IH
                  | v todo flag w w1 r w' t C U _ IH
                  | v todo flag w e1 w1 w2 r w' t C U L _ IH
                  | v todo flag w e1 w1 e2 w2 C U L ];
    intros p e I; simpl in I.
  - contradiction.
  - eauto.
  - eauto.
  - destruct I as [I | I]; [discriminate | eauto].
  - destruct I as [I | [I | I]]; [discriminate | discriminate | eauto].
  - destruct I as [I | [I | []]]; [discriminate |].
    injection I as <- _. reflexivity.
Qed.

(** A run that ends with an error ends at a failed lazy unmount. *)
Lemma loopRun_error todo flag (w : World) r w' t :
  loopRun cfg todo flag w r w' t ->
  forall err, r = inl err ->
    exists p e, In (EvUnmountLazy p (Some e)) t.
Proof.
  induction 1 as [flag w | v todo flag w r w' t C _ IH
                  | v todo flag w r w' t C _ IH
                  | v todo flag w w1 r w' t C U _ IH
                  | v todo flag w e1 w1 w2 r w' t C U L _ IH
                  | v todo flag w e1 w1 e2 w2 C U L ];
    intros err E.
  - discriminate.
  - eauto.
  - eauto.
  - destruct (IH err E) as (p & e & I). exists p, e. simpl. tauto.
  - destruct (IH err E) as (p & e & I). exists p, e. simpl. tauto.
  - exists (Path v), e2. simpl. tauto.
Qed.

(** The unmounts are attempted in the order of the list, on its owned
    records and on all of them unless the run is cut short. *)
Lemma loopRun_attempts todo flag (w : World) r w' t :
  loopRun cfg todo flag w r w' t ->
  isPrefixOf (attempts t) (map Path (filter (owned cfg) todo)) /\
  (forall b, r = inr b ->
     attempts t = map Path (filter (owned cfg) todo)).
Proof.
  induction 1 as [flag w | v todo flag w r w' t C _ IH
                  | v todo flag w r w' t C _ IH
                  | v todo flag w w1 r w' t C U _ IH
                  | v todo flag w e1 w1 w2 r w' t C U L _ IH
                  | v todo flag w e1 w1 e2 w2 C U L ];
    try (assert (O : owned cfg v = match classify cfg v with
                                   | OwnedUnderKubeletOrDataDir => true
                                   | _ => false
                                   end) by reflexivity;
         rewrite C in O);
    simpl; try rewrite O.
  - split; [exists []; reflexivity | reflexivity].
  - exact IH.
  - exact IH.
  - destruct IH as [[rest P] Q]. split.
    + exists rest. simpl. now rewrite P.
    + intros b E. simpl. now rewrite (Q b E).
  - destruct IH as [[rest P] Q]. split.
    + exists rest. simpl. now rewrite P.
    + intros b E. simpl. now rewrite (Q b E).
  - split; [| discriminate].
    exists (map Path (filter (owned cfg) todo)). reflexivity.
Qed.

(** A lazy unmount directly follows the failed normal unmount of the
    same path. *)
Lemma loopRun_lazy_after todo flag (w : World) r w' t :
  loopRun cfg todo flag w r w' t ->
  forall pre p res post, t = (pre ++ EvUnmountLazy p res :: post)%list ->
    exists pre' e, pre = (pre' ++ [EvUnmount p (Some e)])%list.
Proof.
  induction 1 as [flag w | v todo flag w r w' t C _ IH
                  | v todo flag w r w' t C _ IH
                  | v todo flag w w1 r w' t C U _ IH
                  | v todo flag w e1 w1 w2 r w' t C U L _ IH
                  | v todo flag w e1 w1 e2 w2 C U L ];
    intros pre p res post E.
  - destruct pre; discriminate.
  - eauto.
  - eauto.
  - destruct pre as [| ev pre]; [discriminate |].
    injection E as <- E.
    destruct (IH _ _ _ _ E) as (pre' & e & ->).
    exists (EvUnmount (Path v) None :: pre'), e. reflexivity.
  - destruct pre as [| ev pre]; [discriminate |].
    injection E as <- E.
    destruct pre as [| ev' pre].
    + injection E as <- _ _. exists [], e1. reflexivity.
    + injection E as <- E.
      destruct (IH _ _ _ _ E) as (pre' & e & ->).
      exists (EvUnmount (Path v) (Some e1)
                :: EvUnmountLazy (Path v) None :: pre'), e.
      reflexivity.
  - destruct pre as [| ev pre]; [discriminate |].
    injection E as <- E.
    destruct pre as [| ev' pre].
    + injection E as <- _ _. exists [], e1. reflexivity.
    + injection E as _ E. destruct pre; discriminate.
Qed.

End LoopFacts.

(* ================================================================= *)
(** ** [Run], phase by phase *)

Section RunFacts.
Context {World : Type} {os : OS World}.
Variable cfg : Config.

Lemma removeRunDir_eq (w : World) :
  removeRunDir cfg w =
  match os_RemoveAll (runDir cfg) w with
  | (r, w') =>
      (match r with
       | Some e => Some (Errors.Errorf_w ("failed to delete " ++ runDir cfg) e)
       | None => None
       end, w', [EvRemoveAll (runDir cfg) r])
  end.
Proof.
  unfold removeRunDir, bind, callRemoveAll, ret.
  destruct (os_RemoveAll (runDir cfg) w) as [[e |] w']; reflexivity.
Qed.

Lemma removeDirs_done flag (w : World) r w1 :
  os_RemoveAll (dataDir cfg) w = (r, w1) ->
  dataDirDone flag r (dataDir cfg) = true ->
  removeDirs cfg flag w =
  match removeRunDir cfg w1 with
  | (r', w', t) => (r', w', EvRemoveAll (dataDir cfg) r :: t)
  end.
Proof.
  intros R D. unfold removeDirs, bind, callRemoveAll. rewrite R.
  destruct r as [e |]; simpl in *.
  - destruct flag; simpl in *; [| discriminate]. rewrite D. simpl.
    destruct (removeRunDir cfg w1) as [[r' w'] t]. reflexivity.
  - destruct (removeRunDir cfg w1) as [[r' w'] t]. reflexivity.
Qed.

Lemma removeDirs_fatal flag (w : World) r w1 :
  os_RemoveAll (dataDir cfg) w = (r, w1) ->
  dataDirDone flag r (dataDir cfg) = false ->
  exists e, r = Some e /\
    removeDirs cfg flag w =
    (Some (Errors.Errorf_w
             (if flag then "failed to delete contents of mounted data-dir"
              else "failed to delete k0s generated data-dir") e),
     w1, [EvRemoveAll (dataDir cfg) r]).
Proof.
  intros R D. unfold removeDirs, bind, callRemoveAll. rewrite R.
  destruct r as [e |]; simpl in *; [| discriminate].
  exists e. split; [reflexivity |].
  destruct flag; simpl in *; [rewrite D |]; reflexivity.
Qed.

Lemma Run_list_failed (w : World) err :
  mounter_List w = inl err -> Run cfg w = (Some err, w, [EvList (inl err)]).
Proof.
  intro L. unfold Run, bind, callList, ret. rewrite L. reflexivity.
Qed.

Lemma Run_aborted (w : World) ms err w1 t1 :
  mounter_List w = inr ms ->
  unmountLoop cfg (rev ms) false w = (inl err, w1, t1) ->
  Run cfg w = (Some err, w1, EvList (inr ms) :: t1).
Proof.
  intros L U. unfold Run, bind, callList, ret. rewrite L, U. simpl.
  now rewrite app_nil_r.
Qed.

Lemma Run_unmounted (w : World) ms flag w1 t1 :
  mounter_List w = inr ms ->
  unmountLoop cfg (rev ms) false w = (inr flag, w1, t1) ->
  Run cfg w =
  match removeDirs cfg flag w1 with
  | (r, w2, t2) => (r, w2, EvList (inr ms) :: (t1 ++ t2)%list)
  end.
Proof.
  intros L U. unfold Run, bind, callList, ret. rewrite L, U.
  destruct (removeDirs cfg flag w1) as [[r w2] t2]. reflexivity.
Qed.

(** The unmount calls of [Run] are those of its loop. *)
Lemma Run_loop_trace (w : World) ms :
  mounter_List w = inr ms ->
  exists t2,
    trace (Run cfg w) =
    (EvList (inr ms) :: trace (unmountLoop cfg (rev ms) false w) ++ t2)%list
    /\ (forall ev, In ev t2 -> isRemoveAll ev = true)
    /\ (forall err, result (unmountLoop cfg (rev ms) false w) = inl err ->
          t2 = [] /\ result (Run cfg w) = Some err).
Proof.
  intro L.
  destruct (unmountLoop cfg (rev ms) false w) as [[[err | flag] w1] t1] eqn:U.
  - rewrite (Run_aborted _ _ _ _ _ L U). exists []. simpl.
    rewrite app_nil_r. split; [reflexivity |]. split.
    + intros ev [].
    + intros err' E. unfold result in *. simpl in *.
      injection E as <-. split; reflexivity.
  - rewrite (Run_unmounted _ _ _ _ _ L U).
    destruct (os_RemoveAll (dataDir cfg) w1) as [r w2] eqn:R.
    destruct (dataDirDone flag r (dataDir cfg)) eqn:D.
    + rewrite (removeDirs_done _ _ _ _ R D), removeRunDir_eq.
      destruct (os_RemoveAll (runDir cfg) w2) as [r' w3].
      eexists. simpl. split; [reflexivity |]. split.
      * intros ev [<- | [<- | []]]; reflexivity.
      * discriminate.
    + destruct (removeDirs_fatal _ _ _ _ R D) as (e & -> & ->).
      eexists. simpl. split; [reflexivity |]. split.
      * intros ev [<- | []]; reflexivity.
      * discriminate.
Qed.

End RunFacts.

(* ================================================================= *)
(** ** The unmount phase *)

(** C1: when the normal unmount of an owned record fails and its lazy
    unmount fails too, [Run] returns the error "failed unmount <path>"
    naming that record's path, and its trace holds no call of
    [os.RemoveAll]: neither the data directory nor the run directory is
    deleted.  The path is that of an enumerated record the loop
    classifies as owned. *)
Theorem C1_both_unmounts_fail_no_deletion
    {World : Type} {os : OS World} (cfg : Config) (w : World)
    (p : string) (e1 e2 : error) :
  In (EvUnmount p (Some e1)) (trace (Run cfg w)) ->
  In (EvUnmountLazy p (Some e2)) (trace (Run cfg w)) ->
  result (Run cfg w) = Some (errorString ("failed unmount " ++ p)) /\
  (forall ev, In ev (trace (Run cfg w)) -> isRemoveAll ev = false) /\
  (exists ms v, mounter_List w = inr ms /\ In v ms /\ Path v = p /\
                owned cfg v = true).
Proof.
  intros _ HL.
  destruct (mounter_List w) as [err | ms] eqn:L.
  { rewrite (Run_list_failed cfg w err L) in HL.
    simpl in HL. destruct HL as [HL | []]. discriminate. }
  destruct (Run_loop_trace cfg w ms L) as (t2 & T & R2 & A).
  pose proof (unmountLoop_run cfg (rev ms) false w) as LR.
  rewrite T in HL. simpl in HL. destruct HL as [HL | HL]; [discriminate |].
  apply in_app_or in HL. destruct HL as [HL | HL].
  2:{ apply R2 in HL. discriminate. }
  pose proof (loopRun_lazy_failed cfg _ _ _ _ _ _ LR p e2 HL) as F.
  destruct (A _ F) as [-> RR]. split; [exact RR |]. split.
  - intros ev I. rewrite T, app_nil_r in I. destruct I as [<- | I].
    + reflexivity.
    + destruct (loopRun_events cfg _ _ _ _ _ _ LR ev I)
        as (v & res & _ & _ & [-> | ->]); reflexivity.
  - destruct (loopRun_events cfg _ _ _ _ _ _ LR _ HL)
      as (v & res & I & O & [E | E]); [discriminate |].
    injection E as E _. exists ms, v.
    rewrite <- in_rev in I. auto.
Qed.

Lemma C1_both_unmounts_fail_no_deletion_witness :
  result (Run Fake.cfg (Fake.node ["/data/kubelet"] ["/data/kubelet"]))
  = Some (errorString "failed unmount /data/kubelet") /\
  (forall ev,
     In ev (trace (Run Fake.cfg (Fake.node ["/data/kubelet"] ["/data/kubelet"])))
     -> isRemoveAll ev = false) /\
  (exists ms v,
     mounter_List (Fake.node ["/data/kubelet"] ["/data/kubelet"]) = inr ms /\
     In v ms /\ Path v = "/data/kubelet" /\ owned Fake.cfg v = true).
Proof.
  apply (C1_both_unmounts_fail_no_deletion Fake.cfg
           (Fake.node ["/data/kubelet"] ["/data/kubelet"])
           "/data/kubelet" Fake.EBUSY Fake.EBUSY).
  - vm_compute. tauto.
  - vm_compute. tauto.
Defined.

(** C3: the normal unmounts are attempted in the exact reverse of the
    enumeration: the paths attempted, in order, are an initial segment of
    the reversed list of the owned records' paths, and all of it when no
    lazy unmount fails.  So when the [i]-th owned record precedes the
    [j]-th in the enumeration and the unmount of the [i]-th is reached,
    the unmount of the [j]-th was attempted at an earlier position.  For
    the nested mounts [/data], [/data/kubelet], [/data/kubelet/pods/x]
    under the data directory [/data] the owned records are the last two,
    so [/data/kubelet/pods/x] is attempted first, [/data/kubelet] after
    it, and [/data] is never attempted. *)
Theorem C3_unmounts_in_reverse_order :
  (forall {World : Type} {os : OS World} (cfg : Config) (w : World) ms,
     mounter_List w = inr ms ->
     isPrefixOf (attempts (trace (Run cfg w)))
                (rev (map Path (filter (owned cfg) ms))) /\
     ((forall p e, ~ In (EvUnmountLazy p (Some e)) (trace (Run cfg w))) ->
      attempts (trace (Run cfg w)) = rev (map Path (filter (owned cfg) ms))))
  /\
  (forall {World : Type} {os : OS World} (cfg : Config) (w : World) ms i j,
     mounter_List w = inr ms ->
     let o := map Path (filter (owned cfg) ms) in
     let a := attempts (trace (Run cfg w)) in
     i < j -> j < List.length o -> List.length o - S i < List.length a ->
     nth_error a (List.length o - S j) = nth_error o j /\
     nth_error a (List.length o - S i) = nth_error o i /\
     List.length o - S j < List.length o - S i)
  /\
  (forall {World : Type} {os : OS World} (w : World),
     mounter_List w = inr Fake.nested ->
     isPrefixOf (attempts (trace (Run Fake.cfg w)))
                ["/data/kubelet/pods/x"; "/data/kubelet"]).
Proof.
  assert (G : forall {World : Type} {os : OS World} (cfg : Config) (w : World) ms,
     mounter_List w = inr ms ->
     isPrefixOf (attempts (trace (Run cfg w)))
                (rev (map Path (filter (owned cfg) ms))) /\
     ((forall p e, ~ In (EvUnmountLazy p (Some e)) (trace (Run cfg w))) ->
      attempts (trace (Run cfg w)) = rev (map Path (filter (owned cfg) ms)))).
  { intros World os cfg w ms L.
    destruct (Run_loop_trace cfg w ms L) as (t2 & T & R2 & A).
    pose proof (unmountLoop_run cfg (rev ms) false w) as LR.
    destruct (loopRun_attempts cfg _ _ _ _ _ _ LR) as [P Q].
    assert (AT : attempts (trace (Run cfg w))
                 = attempts (trace (unmountLoop cfg (rev ms) false w))).
    { rewrite T. simpl.
      generalize (trace (unmountLoop cfg (rev ms) false w)) as t1.
      induction t1 as [| ev t1 IH]; simpl.
      - clear -R2. induction t2 as [| ev t2 IH]; [reflexivity |].
        pose proof (R2 ev (or_introl eq_refl)) as H.
        destruct ev; try discriminate. simpl. apply IH.
        intros ev' I. apply R2. now right.
      - destruct ev; simpl; now rewrite ?IH. }
    assert (RV : map Path (filter (owned cfg) (rev ms))
                 = rev (map Path (filter (owned cfg) ms))).
    { clear. induction ms as [| v ms IH]; [reflexivity |]. simpl.
      rewrite filter_app, map_app, IH. simpl.
      destruct (owned cfg v); simpl; [reflexivity | now rewrite app_nil_r]. }
    rewrite AT, <- RV. split; [exact P |].
    intro NoFail.
    destruct (result (unmountLoop cfg (rev ms) false w)) as [err | b] eqn:E.
    - destruct (loopRun_error cfg _ _ _ _ _ _ LR err eq_refl) as (p & e & I).
      exfalso. apply (NoFail p e). rewrite T. right.
      apply in_or_app. now left.
    - exact (Q b eq_refl). }
  split; [exact @G | split].
  - intros World os cfg w ms i j L o a Hij Hj Hi.
    destruct (proj1 (G World os cfg w ms L)) as (rest & P).
    fold o a in P.
    assert (N : forall k, k < List.length o ->
                List.length o - S k < List.length a ->
                nth_error a (List.length o - S k) = nth_error o k).
    { intros k Hk Ha.
      rewrite <- (nth_error_app1 a rest Ha), <- P, nth_error_rev.
      destruct (Nat.ltb_spec (List.length o - S k) (List.length o)); [| lia].
      f_equal. lia. }
    split; [apply N; lia | split; [apply N; lia | lia]].
  - intros World os w L. exact (proj1 (G World os Fake.cfg w Fake.nested L)).
Qed.

Lemma C3_unmounts_in_reverse_order_witness :
  isPrefixOf (attempts (trace (Run Fake.cfg (Fake.node [] []))))
             (rev (map Path (filter (owned Fake.cfg)
                                    (Fake.mkMount "/" :: Fake.nested)))) /\
  ((forall p e, ~ In (EvUnmountLazy p (Some e))
                     (trace (Run Fake.cfg (Fake.node [] [])))) ->
   attempts (trace (Run Fake.cfg (Fake.node [] [])))
   = rev (map Path (filter (owned Fake.cfg) (Fake.mkMount "/" :: Fake.nested)))).
Proof.
  apply (proj1 C3_unmounts_in_reverse_order Fake.FakeWorld Fake.fakeOS Fake.cfg
           (Fake.node [] []) (Fake.mkMount "/" :: Fake.nested)).
  reflexivity.
Defined.

(** C4: [Run] never calls an unmount, normal or lazy, on the data
    directory [k0sVars.DataDir]; a record whose path equals it only sets
    [dataDirMounted]; and when the loop has run through the whole list,
    [dataDirMounted] is true exactly when some enumerated record's path
    equals the data directory. *)
Theorem C4_data_dir_root_only_flagged
    {World : Type} {os : OS World} (cfg : Config) (w : World) :
  (forall ev, In ev (trace (Run cfg w)) ->
     isUnmountOf (DataDir (k0sVars cfg)) ev = false) /\
  (forall v todo flag w0,
     Path v = DataDir (k0sVars cfg) ->
     unmountLoop cfg (v :: todo) flag w0 = unmountLoop cfg todo true w0) /\
  (forall ms flag w1 t1,
     mounter_List w = inr ms ->
     unmountLoop cfg (rev ms) false w = (inr flag, w1, t1) ->
     (flag = true <-> exists v, In v ms /\ Path v = DataDir (k0sVars cfg))).
Proof.
  split; [| split].
  - intros ev I.
    destruct (mounter_List w) as [err | ms] eqn:L.
    { rewrite (Run_list_failed cfg w err L) in I.
      destruct I as [<- | []]. reflexivity. }
    destruct (Run_loop_trace cfg w ms L) as (t2 & T & R2 & _).
    rewrite T in I. destruct I as [<- | I]; [reflexivity |].
    apply in_app_or in I. destruct I as [I | I].
    + pose proof (unmountLoop_run cfg (rev ms) false w) as LR.
      destruct (loopRun_events cfg _ _ _ _ _ _ LR ev I)
        as (v & res & _ & O & E).
      assert (N : (Path v =? DataDir (k0sVars cfg)) = false).
      { unfold owned, classify in O.
        destruct (Path v =? DataDir (k0sVars cfg)); [discriminate | reflexivity]. }
      destruct E as [-> | ->]; exact N.
    + apply R2 in I. destruct ev; try discriminate. reflexivity.
  - intros v todo flag w0 E. apply unmountLoop_root. now apply classify_root.
  - intros ms flag w1 t1 _ U.
    apply unmountLoop_run_eq in U.
    pose proof (loopRun_flag cfg _ _ _ _ _ _ U flag eq_refl) as F.
    simpl in F. rewrite F, existsb_exists. split.
    + intros (v & I & E). exists v. rewrite <- in_rev in I.
      split; [exact I |]. now apply String.eqb_eq.
    + intros (v & I & E). exists v. rewrite <- in_rev.
      split; [exact I |]. now apply String.eqb_eq.
Qed.

Lemma C4_data_dir_root_only_flagged_witness :
  true = true <->
  exists v, In v (Fake.mkMount "/" :: Fake.nested) /\ Path v = "/data".
Proof.
  apply (proj2 (proj2 (C4_data_dir_root_only_flagged Fake.cfg
                         (Fake.node ["/data/kubelet"] [])))
           (Fake.mkMount "/" :: Fake.nested) true
           (world (unmountLoop Fake.cfg (rev (Fake.mkMount "/" :: Fake.nested))
                     false (Fake.node ["/data/kubelet"] [])))
           (trace (unmountLoop Fake.cfg (rev (Fake.mkMount "/" :: Fake.nested))
                     false (Fake.node ["/data/kubelet"] [])))).
  - reflexivity.
  - vm_compute. reflexivity.
Defined.

(** C6: a lazy unmount is only ever called directly after the normal
    unmount of the same path has failed; and when, for an owned record,
    the normal unmount fails and the lazy one succeeds, the loop goes on
    with the next record from the world the lazy unmount left, with no
    error from this record and no second normal unmount of it. *)
Theorem C6_lazy_unmount_is_a_fallback
    {World : Type} {os : OS World} (cfg : Config) :
  (forall (w : World) pre p res post,
     trace (Run cfg w) = (pre ++ EvUnmountLazy p res :: post)%list ->
     exists pre' e, pre = (pre' ++ [EvUnmount p (Some e)])%list) /\
  (forall v todo flag (w : World) e1 w1 w2,
     owned cfg v = true ->
     mounter_Unmount (Path v) w = (Some e1, w1) ->
     UnmountLazy (Path v) w1 = (None, w2) ->
     unmountLoop cfg (v :: todo) flag w =
     match unmountLoop cfg todo flag w2 with
     | (r, w', t) =>
         (r, w', EvUnmount (Path v) (Some e1)
                   :: EvUnmountLazy (Path v) None :: t)
     end).
Proof.
  split.
  - intros w pre p res post E.
    destruct (mounter_List w) as [err | ms] eqn:L.
    { rewrite (Run_list_failed cfg w err L) in E. simpl in E.
      destruct pre as [| ev pre]; [discriminate |].
      injection E as _ E. destruct pre; discriminate. }
    destruct (Run_loop_trace cfg w ms L) as (t2 & T & R2 & _).
    rewrite T in E.
    destruct pre as [| ev pre]; [discriminate |].
    injection E as <- E.
    pose proof (unmountLoop_run cfg (rev ms) false w) as LR.
    remember (trace (unmountLoop cfg (rev ms) false w)) as t1 eqn:Ht1.
    assert (S : exists post1, t1 = (pre ++ EvUnmountLazy p res :: post1)%list).
    { clear -E R2. revert pre E.
      induction t1 as [| ev t1 IH]; intros pre E; simpl in E.
      - exfalso. assert (I : In (EvUnmountLazy p res) t2).
        { rewrite E. apply in_or_app. right. now left. }
        apply R2 in I. discriminate.
      - destruct pre as [| ev' pre].
        + injection E as -> _. exists t1. reflexivity.
        + injection E as -> E. destruct (IH pre E) as (post1 & ->).
          exists post1. reflexivity. }
    destruct S as (post1 & S).
    destruct (loopRun_lazy_after cfg _ _ _ _ _ _ LR _ _ _ _ S)
      as (pre' & e & ->).
    exists (EvList (inr ms) :: pre'), e. reflexivity.
  - intros v todo flag w e1 w1 w2 O U L.
    apply owned_classify in O.
    rewrite (unmountLoop_owned cfg v todo flag w O), U, L. reflexivity.
Qed.

Lemma C6_lazy_unmount_is_a_fallback_witness :
  exists pre' e,
    [EvList (inr (Fake.mkMount "/" :: Fake.nested));
     EvUnmount "/data/kubelet/pods/x" None;
     EvUnmount "/data/kubelet" (Some Fake.EBUSY)]
    = (pre' ++ [EvUnmount "/data/kubelet" (Some e)])%list.
Proof.
  apply (proj1 (C6_lazy_unmount_is_a_fallback Fake.cfg)
           (Fake.node ["/data/kubelet"] [])
           [EvList (inr (Fake.mkMount "/" :: Fake.nested));
            EvUnmount "/data/kubelet/pods/x" None;
            EvUnmount "/data/kubelet" (Some Fake.EBUSY)]
           "/data/kubelet" None
           [EvRemoveAll "/data" (Some (PathError "unlinkat" "/data" Fake.EBUSY));
            EvRemoveAll "/run/k0s" None]).
  vm_compute. reflexivity.
Defined.

(* ================================================================= *)
(** ** The deletion phase *)

(** C2: when the loop has run through and the deletion of the data
    directory fails with [e], [Run] goes on to delete the run directory
    if and only if [dataDirMounted] is true and the path error of [e] is
    an "unlinkat" of exactly the data directory.  In every other case
    [Run] stops there and returns an error wrapping [e]: with
    [dataDirMounted] false, with another operation, or with another path,
    such as one below the data directory. *)
Theorem C2_data_dir_failure_tolerated_iff
    {World : Type} {os : OS World} (cfg : Config) (w : World)
    ms flag w1 t1 e w2 :
  mounter_List w = inr ms ->
  unmountLoop cfg (rev ms) false w = (inr flag, w1, t1) ->
  os_RemoveAll (dataDir cfg) w1 = (Some e, w2) ->
  let tolerated :=
    flag = true /\
    exists inner, Errors.AsPathError e = Some ("unlinkat", dataDir cfg, inner) in
  ((exists r2,
      trace (Run cfg w) =
      (EvList (inr ms) :: t1 ++ [EvRemoveAll (dataDir cfg) (Some e);
                                 EvRemoveAll (runDir cfg) r2])%list)
   <-> tolerated) /\
  (~ tolerated ->
   result (Run cfg w) =
     Some (Errors.Errorf_w
             (if flag then "failed to delete contents of mounted data-dir"
              else "failed to delete k0s generated data-dir") e) /\
   world (Run cfg w) = w2 /\
   trace (Run cfg w) =
     (EvList (inr ms) :: t1 ++ [EvRemoveAll (dataDir cfg) (Some e)])%list) /\
  (flag = false -> ~ tolerated) /\
  (forall op path inner,
     Errors.AsPathError e = Some (op, path, inner) ->
     op <> "unlinkat" -> ~ tolerated) /\
  (forall sub inner,
     Errors.AsPathError e
       = Some ("unlinkat", dataDir cfg ++ "/" ++ sub, inner) ->
     ~ tolerated).
Proof.
  intros L U R tolerated.
  assert (D : dataDirDone flag (Some e) (dataDir cfg) = true <-> tolerated).
  { unfold tolerated, dataDirDone, errorIsUnlinkat.
    destruct flag; simpl.
    - destruct (Errors.AsPathError e) as [[[op path] inner] |].
      + rewrite andb_true_iff, !String.eqb_eq. split.
        * intros [-> ->]. split; [reflexivity |]. now exists inner.
        * intros [_ (inner' & E)]. injection E as -> -> _. tauto.
      + split; [discriminate |]. intros [_ (inner' & E)]. discriminate.
    - split; [discriminate |]. intros [F _]. discriminate. }
  assert (Fatal : ~ tolerated ->
    result (Run cfg w) =
     Some (Errors.Errorf_w
             (if flag then "failed to delete contents of mounted data-dir"
              else "failed to delete k0s generated data-dir") e) /\
    world (Run cfg w) = w2 /\
    trace (Run cfg w) =
     (EvList (inr ms) :: t1 ++ [EvRemoveAll (dataDir cfg) (Some e)])%list).
  { intro N.
    assert (D' : dataDirDone flag (Some e) (dataDir cfg) = false).
    { destruct (dataDirDone flag (Some e) (dataDir cfg)); [| reflexivity].
      exfalso. apply N, D. reflexivity. }
    rewrite (Run_unmounted cfg w ms flag w1 t1 L U).
    destruct (removeDirs_fatal cfg flag w1 _ w2 R D') as (e' & E & ->).
    injection E as <-. repeat split. }
  split; [| split; [exact Fatal | split; [| split]]].
  - split.
    + intros (r2 & T).
      apply D. destruct (dataDirDone flag (Some e) (dataDir cfg)) eqn:D';
        [reflexivity |].
      exfalso.
      assert (N : ~ tolerated) by (intro X; apply D in X; congruence).
      destruct (Fatal N) as (_ & _ & T'). rewrite T' in T.
      injection T as T. apply app_inv_head in T. discriminate.
    + intro X. apply D in X.
      rewrite (Run_unmounted cfg w ms flag w1 t1 L U).
      rewrite (removeDirs_done cfg flag w1 _ w2 R X), removeRunDir_eq.
      destruct (os_RemoveAll (runDir cfg) w2) as [r2 w3].
      exists r2. reflexivity.
  - intros -> [F _]. discriminate.
  - intros op path inner E N [_ (inner' & E')].
    rewrite E in E'. injection E' as -> _ _. now apply N.
  - intros sub inner E [_ (inner' & E')].
    rewrite E in E'. injection E' as E' _.
    apply (f_equal String.length) in E'.
    rewrite !length_append in E'. simpl in E'. lia.
Qed.

Lemma C2_data_dir_failure_tolerated_iff_witness :
  (exists r2,
     trace (Run Fake.cfg (Fake.node [] [])) =
     (EvList (inr (Fake.mkMount "/" :: Fake.nested))
        :: [EvUnmount "/data/kubelet/pods/x" None;
            EvUnmount "/data/kubelet" None]
        ++ [EvRemoveAll "/data"
              (Some (PathError "unlinkat" "/data" Fake.EBUSY));
            EvRemoveAll "/run/k0s" r2])%list)
  <-> (true = true /\
       exists inner,
         Errors.AsPathError (PathError "unlinkat" "/data" Fake.EBUSY)
         = Some ("unlinkat", "/data", inner)).
Proof.
  apply (C2_data_dir_failure_tolerated_iff Fake.cfg (Fake.node [] [])
           (Fake.mkMount "/" :: Fake.nested) true
           (world (unmountLoop Fake.cfg
                     (rev (Fake.mkMount "/" :: Fake.nested)) false
                     (Fake.node [] [])))
           [EvUnmount "/data/kubelet/pods/x" None;
            EvUnmount "/data/kubelet" None]
           (PathError "unlinkat" "/data" Fake.EBUSY)
           (snd (os_RemoveAll "/data"
                   (world (unmountLoop Fake.cfg
                             (rev (Fake.mkMount "/" :: Fake.nested)) false
                             (Fake.node [] [])))))).
  - reflexivity.
  - vm_compute. reflexivity.
  - vm_compute. reflexivity.
Defined.

(** C7: once the deletion of the data directory is done, whether it
    succeeded or failed in the tolerated way, [Run] calls [os.RemoveAll]
    on the run directory; [Run] returns nil when that call succeeds and
    an error wrapping the failure whenever it fails, whatever the failure
    is and whatever [dataDirMounted] holds. *)
Theorem C7_run_dir_deleted_failure_fatal
    {World : Type} {os : OS World} (cfg : Config) (w : World)
    ms flag w1 t1 r w2 r2 w3 :
  mounter_List w = inr ms ->
  unmountLoop cfg (rev ms) false w = (inr flag, w1, t1) ->
  os_RemoveAll (dataDir cfg) w1 = (r, w2) ->
  (r = None \/ (flag = true /\ errorIsUnlinkat r (dataDir cfg) = true)) ->
  os_RemoveAll (runDir cfg) w2 = (r2, w3) ->
  trace (Run cfg w) =
    (EvList (inr ms) :: t1 ++ [EvRemoveAll (dataDir cfg) r;
                               EvRemoveAll (runDir cfg) r2])%list /\
  world (Run cfg w) = w3 /\
  (r2 = None -> result (Run cfg w) = None) /\
  (forall e2, r2 = Some e2 ->
     result (Run cfg w) =
     Some (Errors.Errorf_w ("failed to delete " ++ runDir cfg) e2)).
Proof.
  intros L U R D R2.
  assert (D' : dataDirDone flag r (dataDir cfg) = true).
  { destruct D as [-> | [-> D]]; [reflexivity |].
    destruct r as [e |]; [exact D | reflexivity]. }
  rewrite (Run_unmounted cfg w ms flag w1 t1 L U).
  rewrite (removeDirs_done cfg flag w1 r w2 R D'), removeRunDir_eq, R2.
  repeat split.
  - intros ->. reflexivity.
  - intros e2 ->. reflexivity.
Qed.

Lemma C7_run_dir_deleted_failure_fatal_witness :
  trace (Run Fake.cfg (Fake.node [] [])) =
    (EvList (inr (Fake.mkMount "/" :: Fake.nested))
       :: [EvUnmount "/data/kubelet/pods/x" None;
           EvUnmount "/data/kubelet" None]
       ++ [EvRemoveAll "/data" (Some (PathError "unlinkat" "/data" Fake.EBUSY));
           EvRemoveAll "/run/k0s" None])%list /\
  world (Run Fake.cfg (Fake.node [] []))
  = {| Fake.mounts := [Fake.mkMount "/"; Fake.mkMount "/data"];
       Fake.files := ["/data"; "/etc/hosts"];
       Fake.busy := []; Fake.stuck := [] |} /\
  (@None error = None -> result (Run Fake.cfg (Fake.node [] [])) = None) /\
  (forall e2, None = Some e2 ->
     result (Run Fake.cfg (Fake.node [] [])) =
     Some (Errors.Errorf_w ("failed to delete " ++ "/run/k0s") e2)).
Proof.
  eapply (C7_run_dir_deleted_failure_fatal Fake.cfg (Fake.node [] [])
            (Fake.mkMount "/" :: Fake.nested) true).
  - reflexivity.
  - vm_compute. reflexivity.
  - vm_compute. reflexivity.
  - right. split; vm_compute; reflexivity.
  - vm_compute. reflexivity.
Defined.

(** C8: in a world where the data directory and the run directory are
    absent and no enumerated mount record is owned by or equal to the
    data directory, [Run] returns nil, leaves the world as it found it,
    calls no unmount, and its two deletions return nil. *)
Theorem C8_second_run_changes_nothing
    {World : Type} {os : OS World} {fs : RemoveAllAbsent World}
    (cfg : Config) (w : World) ms :
  mounter_List w = inr ms ->
  (forall v, In v ms ->
     Path v <> DataDir (k0sVars cfg) /\ owned cfg v = false) ->
  pathExists (dataDir cfg) w = false ->
  pathExists (runDir cfg) w = false ->
  Run cfg w =
    (None, w, [EvList (inr ms); EvRemoveAll (dataDir cfg) None;
               EvRemoveAll (runDir cfg) None]).
Proof.
  intros L N AD AR.
  assert (U : forall todo, (forall v, In v todo -> In v ms) ->
            unmountLoop cfg todo false w = (inr false, w, [])).
  { induction todo as [| v todo IH]; intro S; [reflexivity |].
    destruct (N v (S v (or_introl eq_refl))) as [NR NO].
    assert (C : classify cfg v = Unrelated).
    { unfold owned in NO. destruct (classify cfg v) eqn:C;
        [| discriminate | reflexivity].
      apply classify_root in C. contradiction. }
    rewrite (unmountLoop_unrelated cfg v todo false w C).
    apply IH. intros u I. apply S. now right. }
  rewrite (Run_unmounted cfg w ms false w []
             L (U (rev ms) (fun v I => proj2 (in_rev ms v) I))).
  rewrite (removeDirs_done cfg false w None w
             (RemoveAll_absent _ _ AD) eq_refl).
  rewrite removeRunDir_eq, (RemoveAll_absent _ _ AR). reflexivity.
Qed.

Lemma C8_second_run_changes_nothing_witness :
  Run Fake.cfg (world (Run Fake.cfg Fake.plainNode)) =
    (None, world (Run Fake.cfg Fake.plainNode),
     [EvList (inr [Fake.mkMount "/"]); EvRemoveAll "/data" None;
      EvRemoveAll "/run/k0s" None]).
Proof.
  apply (C8_second_run_changes_nothing Fake.cfg
           (world (Run Fake.cfg Fake.plainNode)) [Fake.mkMount "/"]).
  - vm_compute. reflexivity.
  - intros v [<- | []]. split; [discriminate | vm_compute; reflexivity].
  - vm_compute. reflexivity.
  - vm_compute. reflexivity.
Defined.

(* ================================================================= *)
(** ** The tolerated error *)

Lemma AsPathError_None_iff (e : error) :
  Errors.AsPathError e = None <-> Errors.hasPathError e = false.
Proof.
  induction e as [s | msg e IH | op path e IH | errs IH] using error_ind;
    simpl.
  - tauto.
  - exact IH.
  - split; discriminate.
  - induction IH as [| e errs H _ IHl]; [tauto |].
    destruct (Errors.AsPathError e) as [pe |] eqn:A.
    + destruct (Errors.hasPathError e).
      * split; discriminate.
      * destruct H as [_ H]. discriminate (H eq_refl).
    + destruct H as [H _]. rewrite (H eq_refl). simpl. exact IHl.
Qed.

Lemma AsPathError_wrapMany (msgs : list string) (e : error) :
  Errors.AsPathError (Errors.wrapMany msgs e) = Errors.AsPathError e.
Proof.
  induction msgs as [| m msgs IH]; simpl; [reflexivity | exact IH].
Qed.

(** [errors.As] stops at the first path error of the chain: one that
    does not match hides a matching one it wraps. *)
Example errorIsUnlinkat_first_path_error_decides :
  errorIsUnlinkat
    (Some (PathError "open" "/data/db" (PathError "unlinkat" "/data" Fake.EBUSY)))
    "/data" = false /\
  errorIsUnlinkat
    (Some (joinError [errorString "interrupted";
                      PathError "unlinkat" "/data" Fake.EBUSY]))
    "/data" = true.
Proof. split; reflexivity. Qed.

(** C10: [errorIsUnlinkat] is false for a nil error and for an error
    with no [*os.PathError] in its chain; [errors.As] finds a path error
    exactly when the chain holds one; for the path error it finds, at
    whatever depth of wrapping, the result is true exactly when its [Op]
    is "unlinkat" and its [Path] is the directory; so wrapping an error
    with [%w] any number of times does not change the result. *)
Theorem C10_errorIsUnlinkat_looks_through_wrapping :
  (forall dir, errorIsUnlinkat None dir = false) /\
  (forall e dir,
     Errors.hasPathError e = false -> errorIsUnlinkat (Some e) dir = false) /\
  (forall e,
     Errors.hasPathError e = true <->
     exists op path inner, Errors.AsPathError e = Some (op, path, inner)) /\
  (forall e dir op path inner,
     Errors.AsPathError e = Some (op, path, inner) ->
     (errorIsUnlinkat (Some e) dir = true <-> op = "unlinkat" /\ path = dir)) /\
  (forall msgs e dir,
     errorIsUnlinkat (Some (Errors.wrapMany msgs e)) dir
     = errorIsUnlinkat (Some e) dir) /\
  (forall msgs dir inner,
     errorIsUnlinkat
       (Some (Errors.wrapMany msgs (PathError "unlinkat" dir inner))) dir
     = true).
Proof.
  split; [reflexivity |]. split; [| split; [| split; [| split]]].
  - intros e dir H. apply AsPathError_None_iff in H.
    unfold errorIsUnlinkat. now rewrite H.
  - intro e. split.
    + intro H. destruct (Errors.AsPathError e) as [[[op path] inner] |] eqn:A.
      * now exists op, path, inner.
      * apply AsPathError_None_iff in A. congruence.
    + intros (op & path & inner & A).
      destruct (Errors.hasPathError e) eqn:H; [reflexivity |].
      apply AsPathError_None_iff in H. congruence.
  - intros e dir op path inner A. unfold errorIsUnlinkat. rewrite A.
    rewrite andb_true_iff, !String.eqb_eq. tauto.
  - intros msgs e dir. unfold errorIsUnlinkat.
    now rewrite AsPathError_wrapMany.
  - intros msgs dir inner. unfold errorIsUnlinkat.
    rewrite AsPathError_wrapMany. simpl. now rewrite String.eqb_refl.
Qed.

Lemma C10_errorIsUnlinkat_looks_through_wrapping_witness :
  errorIsUnlinkat (Some (errorString "permission denied")) "/data" = false.
Proof.
  apply (proj1 (proj2 C10_errorIsUnlinkat_looks_through_wrapping)).
  reflexivity.
Defined.

(* ================================================================= *)
(** ** Path containment *)

Section PathFacts.
Import Strings Filepath.

Lemma isComponent_noSep x : isComponent x = true -> noSep x.
Proof.
  unfold isComponent, noSep. rewrite !andb_true_iff.
  intros (_ & H). now apply Nat.eqb_eq.
Qed.

Lemma noSep_empty : noSep "".
Proof. reflexivity. Qed.

Lemma noSep_cons c e : noSep (String c e) -> Ascii.eqb c "/" = false /\ noSep e.
Proof.
  unfold noSep. simpl. destruct (Ascii.eqb c "/"); simpl; [discriminate | auto].
Qed.

Lemma cutElem_sep e s : noSep e -> cutElem (e ++ String "/" s) = (e, s).
Proof.
  induction e as [| c e IH]; intro N; [reflexivity |].
  apply noSep_cons in N. destruct N as [C N]. simpl.
  rewrite C, (IH N). reflexivity.
Qed.

Lemma cutElem_last e : noSep e -> cutElem e = (e, "").
Proof.
  induction e as [| c e IH]; intro N; [reflexivity |].
  apply noSep_cons in N. destruct N as [C N]. simpl.
  rewrite C, (IH N). reflexivity.
Qed.

Lemma SplitSep_sep e s :
  noSep e -> SplitSep (e ++ String "/" s) = e :: SplitSep s.
Proof.
  induction e as [| c e IH]; intro N; [reflexivity |].
  apply noSep_cons in N. destruct N as [C N]. simpl.
  rewrite C, (IH N). reflexivity.
Qed.

Lemma SplitSep_last e : noSep e -> SplitSep e = [e].
Proof.
  induction e as [| c e IH]; intro N; [reflexivity |].
  apply noSep_cons in N. destruct N as [C N]. simpl.
  rewrite C, (IH N). reflexivity.
Qed.

Lemma SplitSep_behind K s :
  Forall noSep K -> SplitSep (behind K s) = (K ++ SplitSep s)%list.
Proof.
  induction 1 as [| e K N _ IH]; [reflexivity |].
  simpl. now rewrite (SplitSep_sep _ _ N), IH.
Qed.

Lemma length_behind K s :
  String.length (behind K s) >= List.length K + String.length s.
Proof.
  induction K as [| e K IH]; simpl; [lia |].
  rewrite !length_append. simpl. lia.
Qed.

Lemma behind_app K1 K2 s : behind (K1 ++ K2) s = behind K1 (behind K2 s).
Proof.
  induction K1 as [| e K1 IH]; simpl; [reflexivity | now rewrite IH].
Qed.

(** An absolute path as its elements behind the root. *)
Lemma absPath_behind cs x : absPath (cs ++ [x]) = behind ("" :: cs) x.
Proof.
  unfold absPath. simpl. f_equal.
  induction cs as [| c cs IH]; [reflexivity |].
  simpl. rewrite <- IH. destruct (cs ++ [x])%list eqn:E; [| reflexivity].
  destruct cs; discriminate.
Qed.

Lemma absPath_child cs c x :
  absPath ((cs ++ [c]) ++ [x]) = absPath (cs ++ [c]) ++ "/" ++ x.
Proof.
  rewrite !absPath_behind. simpl. f_equal.
  induction cs as [| e cs IH]; [reflexivity |].
  simpl. now rewrite IH, !append_assoc.
Qed.

Lemma absPath_sibling cs c s :
  absPath (cs ++ [c ++ s]) = absPath (cs ++ [c]) ++ s.
Proof.
  rewrite !absPath_behind. simpl. f_equal.
  induction cs as [| e cs IH]; [reflexivity |].
  simpl. now rewrite IH, !append_assoc.
Qed.

Lemma cutElem_length s :
  String.length (snd (cutElem s)) <= String.length s.
Proof.
  induction s as [| c s IH]; simpl; [lia |].
  destruct (Ascii.eqb c "/"); simpl; [lia |].
  destruct (cutElem s) as [e r]. simpl in *. lia.
Qed.

Lemma cutElem_shorter s :
  s <> "" -> String.length (snd (cutElem s)) < String.length s.
Proof.
  destruct s as [| c s]; [congruence | intros _]. simpl.
  destruct (Ascii.eqb c "/"); simpl; [lia |].
  pose proof (cutElem_length s) as L.
  destruct (cutElem s) as [e r]. simpl in *. lia.
Qed.

(** The loop of [Rel] never runs out of turns: its result is the same for
    every bound above the length of what is left of the base. *)
Lemma relLoop_fuel f1 : forall f2 b t,
  String.length b < f1 -> String.length b < f2 ->
  relLoop f1 b t = relLoop f2 b t.
Proof.
  induction f1 as [| f1 IH]; intros f2 b t H1 H2; [lia |].
  destruct f2 as [| f2]; [lia |]. simpl.
  destruct (String.eqb_spec b "") as [-> | NB]; [reflexivity |].
  destruct (t =? ""); [reflexivity |]. simpl.
  pose proof (cutElem_shorter b NB) as S.
  destruct (cutElem b) as [be b'], (cutElem t) as [te t']. simpl in S.
  destruct (te =? be); [| reflexivity].
  apply IH; lia.
Qed.

(** The loop of [Rel] steps over the elements two paths share. *)
Lemma relLoop_behind K : Forall noSep K -> forall f b t,
  relLoop (List.length K + f) (behind K b) (behind K t) = relLoop f b t.
Proof.
  induction 1 as [| e K N _ IH]; intros f b t; [reflexivity |].
  simpl.
  assert (NE : forall r, (e ++ String "/" r =? "") = false).
  { intro r. destruct e; reflexivity. }
  rewrite !NE. simpl. rewrite !(cutElem_sep _ _ N), String.eqb_refl.
  apply IH.
Qed.

Lemma relLoop_behind_fuel K b t : Forall noSep K ->
  relLoop (S (String.length (behind K b))) (behind K b) (behind K t)
  = relLoop (S (String.length (behind K b) - List.length K)) b t.
Proof.
  intro N. pose proof (length_behind K b) as L.
  replace (S (String.length (behind K b)))
    with (List.length K + S (String.length (behind K b) - List.length K))
    by lia.
  now apply relLoop_behind.
Qed.

(** Cleaning keeps the elements that name something. *)
Lemma fold_cleanStep_components rooted cs : forall out,
  Forall (fun c => isComponent c = true) cs ->
  fold_left (cleanStep rooted) cs out = (rev cs ++ out)%list.
Proof.
  induction cs as [| c cs IH]; intros out F; [reflexivity |].
  inversion F as [| ? ? C F']; subst. simpl.
  rewrite (IH _ F'). rewrite <- app_assoc. simpl.
  f_equal. unfold cleanStep.
  unfold isComponent in C. rewrite !andb_true_iff, !negb_true_iff in C.
  destruct C as (((-> & ->) & ->) & _). reflexivity.
Qed.

Lemma fold_cleanStep_empty rooted out :
  fold_left (cleanStep rooted) [""] out = out.
Proof. reflexivity. Qed.

Lemma components_noSep cs :
  Forall (fun c => isComponent c = true) cs -> Forall noSep cs.
Proof.
  intro F. eapply Forall_impl; [| exact F]. apply isComponent_noSep.
Qed.

Lemma SplitSep_absPath cs :
  Forall (fun c => isComponent c = true) cs ->
  SplitSep (absPath cs) = match cs with [] => [""; ""] | _ => "" :: cs end.
Proof.
  intro F. destruct cs as [| c cs]; [reflexivity |].
  destruct (exists_last (l := c :: cs) ltac:(discriminate)) as (K & x & E).
  rewrite E in *. rewrite absPath_behind.
  apply Forall_app in F. destruct F as [FK Fx].
  inversion Fx as [| ? ? Cx _]; subst.
  rewrite SplitSep_behind.
  - rewrite (SplitSep_last _ (isComponent_noSep _ Cx)).
    destruct (K ++ [x])%list eqn:E'; [destruct K; discriminate |].
    rewrite <- E'. reflexivity.
  - constructor; [exact noSep_empty | now apply components_noSep].
Qed.

(** A cleaned absolute path is left as it is. *)
Lemma Clean_absPath cs :
  Forall (fun c => isComponent c = true) cs ->
  Clean (absPath cs) = absPath cs.
Proof.
  intro F. unfold Clean.
  change (absPath cs =? "") with false.
  change (HasPrefix (absPath cs) "/") with true.
  cbv iota. rewrite (SplitSep_absPath cs F).
  destruct cs as [| c cs]; [reflexivity |].
  change (fold_left (cleanStep true) ("" :: c :: cs) [])
    with (fold_left (cleanStep true) (c :: cs) []).
  rewrite (fold_cleanStep_components true _ [] F).
  rewrite app_nil_r, rev_involutive. reflexivity.
Qed.

Lemma Clean_behind_root cs :
  Forall (fun c => isComponent c = true) cs ->
  Clean (behind ("" :: cs) "") = absPath cs.
Proof.
  intro F. unfold Clean.
  change (behind ("" :: cs) "" =? "") with false.
  change (HasPrefix (behind ("" :: cs) "") "/") with true.
  cbv iota. rewrite SplitSep_behind.
  2:{ constructor; [exact noSep_empty | now apply components_noSep]. }
  change (SplitSep "") with [""].
  change (("" :: cs) ++ [""])%list with ("" :: (cs ++ [""]))%list.
  change (fold_left (cleanStep true) ("" :: (cs ++ [""])) [])
    with (fold_left (cleanStep true) (cs ++ [""]) []).
  rewrite fold_left_app, (fold_cleanStep_components true _ [] F).
  rewrite fold_cleanStep_empty, app_nil_r, rev_involutive.
  destruct cs; reflexivity.
Qed.

Lemma dirPart_noSep s : noSep s -> dirPart s = "".
Proof.
  induction s as [| c s IH]; intro N; [reflexivity |].
  apply noSep_cons in N. destruct N as [C N]. simpl.
  now rewrite (IH N), C.
Qed.

Lemma dirPart_sep e s : dirPart (e ++ String "/" s) = e ++ String "/" (dirPart s).
Proof.
  induction e as [| c e IH]; simpl.
  - destruct (dirPart s); reflexivity.
  - rewrite IH. destruct e; reflexivity.
Qed.

Lemma dirPart_behind K s : noSep s -> dirPart (behind K s) = behind K "".
Proof.
  intro N. induction K as [| e K IH]; simpl.
  - now apply dirPart_noSep.
  - now rewrite dirPart_sep, IH.
Qed.

(** The parent of a cleaned absolute path. *)
Lemma Dir_absPath cs c :
  Forall (fun c => isComponent c = true) cs -> isComponent c = true ->
  Dir (absPath (cs ++ [c])) = absPath cs.
Proof.
  intros F C. unfold Dir.
  rewrite absPath_behind, (dirPart_behind _ _ (isComponent_noSep _ C)).
  now apply Clean_behind_root.
Qed.

Lemma isComponent_nonempty x : isComponent x = true -> (x =? "") = false.
Proof.
  unfold isComponent. rewrite !andb_true_iff, !negb_true_iff. tauto.
Qed.

Lemma isComponent_not_dotdot x : isComponent x = true -> (x =? "..") = false.
Proof.
  unfold isComponent. rewrite !andb_true_iff, !negb_true_iff. tauto.
Qed.

Lemma CountSep_append s1 s2 : CountSep (s1 ++ s2) = CountSep s1 + CountSep s2.
Proof.
  induction s1 as [| c s1 IH]; simpl; [reflexivity |]. rewrite IH. lia.
Qed.

(** A name with a digit appended is still a name. *)
Lemma isComponent_digit c :
  isComponent c = true -> isComponent (c ++ "2") = true.
Proof.
  intro C. pose proof (isComponent_noSep _ C) as N.
  assert (E1 : (c ++ "2" =? "") = false) by (destruct c; reflexivity).
  assert (E2 : (c ++ "2" =? ".") = false).
  { apply String.eqb_neq. destruct c as [| a [| b c]]; discriminate. }
  assert (E3 : (c ++ "2" =? "..") = false).
  { apply String.eqb_neq. destruct c as [| a [| b [| d c]]]; discriminate. }
  unfold isComponent. rewrite CountSep_append, N, E1, E2, E3. reflexivity.
Qed.

Lemma append_neq_self s t : t <> "" -> s ++ t <> s.
Proof.
  intros N E. apply (f_equal String.length) in E.
  rewrite length_append in E. destruct t; [congruence | simpl in E; lia].
Qed.

(** [Rel] between cleaned absolute paths that differ. *)
Lemma Rel_absPath bs ts :
  Forall (fun c => isComponent c = true) bs ->
  Forall (fun c => isComponent c = true) ts ->
  absPath ts <> absPath bs ->
  Rel (absPath bs) (absPath ts) =
  match relLoop (S (String.length (absPath bs))) (absPath bs) (absPath ts) with
  | (cur, brest, trest) =>
      if cur =? ".." then None
      else if negb (brest =? "") then
        Some (".." ++ upDirs (CountSep brest)
                ++ (if negb (trest =? "") then "/" ++ trest else ""))
      else Some trest
  end.
Proof.
  intros FB FT N. unfold Rel.
  rewrite (Clean_absPath _ FB), (Clean_absPath _ FT).
  apply String.eqb_neq in N. rewrite N. reflexivity.
Qed.

Lemma relLoop_done f t : relLoop f "" t = ("", "", t).
Proof. destruct f; reflexivity. Qed.

Lemma relLoop_target_done f b : relLoop f b "" = ("", b, "").
Proof.
  destruct f; [reflexivity |]. simpl. now rewrite orb_true_r.
Qed.

Lemma last_cases {A : Type} (l : list A) :
  (exists K x, l = (K ++ [x])%list) \/ l = [].
Proof.
  destruct l as [| a l]; [now right | left].
  destruct (exists_last (l := a :: l) ltac:(discriminate)) as (K & x & E).
  now exists K, x.
Qed.

(** From a directory to an entry in it. *)
Lemma Rel_child cs x :
  Forall (fun c => isComponent c = true) cs -> isComponent x = true ->
  Rel (absPath cs) (absPath (cs ++ [x])) = Some x.
Proof.
  intros F C.
  assert (FX : Forall (fun c => isComponent c = true) (cs ++ [x])).
  { apply Forall_app. split; [exact F | now constructor]. }
  pose proof (isComponent_nonempty _ C) as NX.
  destruct (last_cases cs) as [(K & l & ->) | ->].
  2:{ rewrite Rel_absPath; [| constructor | exact FX |].
      - change (absPath []) with (behind [""] "").
        rewrite (absPath_behind [] x), relLoop_behind_fuel.
        + rewrite relLoop_done. reflexivity.
        + constructor; [exact noSep_empty | constructor].
      - intro E. apply (f_equal String.length) in E.
        rewrite (absPath_behind [] x) in E. simpl in E.
        destruct x; [discriminate | simpl in E; lia]. }
  apply Forall_app in F. destruct F as [FK Fl].
  inversion Fl as [| ? ? Cl _]; subst.
  pose proof (isComponent_noSep _ Cl) as Nl.
  rewrite Rel_absPath; [| apply Forall_app; split; assumption | exact FX |].
  - rewrite (absPath_behind (K ++ [l]) x), (absPath_behind K l).
    change ("" :: K ++ [l])%list with (("" :: K) ++ [l])%list.
    rewrite behind_app. simpl (behind [l] x).
    rewrite relLoop_behind_fuel.
    2:{ constructor; [exact noSep_empty | now apply components_noSep]. }
    cbn [relLoop].
    rewrite (isComponent_nonempty _ Cl).
    assert (NE : (l ++ String "/" x =? "") = false) by (destruct l; reflexivity).
    rewrite NE. cbn [orb].
    rewrite (cutElem_last _ Nl), (cutElem_sep _ _ Nl), String.eqb_refl.
    rewrite relLoop_done. reflexivity.
  - rewrite absPath_child. apply append_neq_self. discriminate.
Qed.

(** From an entry to its directory. *)
Lemma Rel_parent cs x :
  Forall (fun c => isComponent c = true) cs -> isComponent x = true ->
  Rel (absPath (cs ++ [x])) (absPath cs) = Some "..".
Proof.
  intros F C.
  assert (FX : Forall (fun c => isComponent c = true) (cs ++ [x])).
  { apply Forall_app. split; [exact F | now constructor]. }
  pose proof (isComponent_nonempty _ C) as NX.
  pose proof (isComponent_noSep _ C) as NS.
  destruct (last_cases cs) as [(K & l & ->) | ->].
  2:{ rewrite Rel_absPath; [| exact FX | constructor |].
      - change (absPath []) with (behind [""] "").
        rewrite (absPath_behind [] x), relLoop_behind_fuel.
        + rewrite relLoop_target_done. cbn [String.eqb].
          rewrite NX, NS. reflexivity.
        + constructor; [exact noSep_empty | constructor].
      - intro E. apply (f_equal String.length) in E.
        rewrite (absPath_behind [] x) in E. simpl in E.
        destruct x; [discriminate | simpl in E; lia]. }
  apply Forall_app in F. destruct F as [FK Fl].
  inversion Fl as [| ? ? Cl _]; subst.
  pose proof (isComponent_noSep _ Cl) as Nl.
  rewrite Rel_absPath; [| exact FX | apply Forall_app; split; assumption |].
  - rewrite (absPath_behind (K ++ [l]) x), (absPath_behind K l).
    change ("" :: K ++ [l])%list with (("" :: K) ++ [l])%list.
    rewrite behind_app. simpl (behind [l] x).
    rewrite relLoop_behind_fuel.
    2:{ constructor; [exact noSep_empty | now apply components_noSep]. }
    cbn [relLoop].
    rewrite (isComponent_nonempty _ Cl).
    assert (NE : (l ++ String "/" x =? "") = false) by (destruct l; reflexivity).
    rewrite NE. cbn [orb].
    rewrite (cutElem_last _ Nl), (cutElem_sep _ _ Nl), String.eqb_refl.
    rewrite relLoop_target_done. cbn [String.eqb].
    rewrite NX, NS. reflexivity.
  - rewrite absPath_child. intro E. symmetry in E. revert E.
    apply append_neq_self. discriminate.
Qed.

(** From an entry to a sibling whose name extends its own. *)
Lemma Rel_sibling cs c :
  Forall (fun c => isComponent c = true) cs -> isComponent c = true ->
  Rel (absPath (cs ++ [c])) (absPath (cs ++ [c ++ "2"]))
  = Some ("../" ++ c ++ "2").
Proof.
  intros F C.
  pose proof (isComponent_digit _ C) as C2.
  pose proof (isComponent_noSep _ C) as N.
  pose proof (isComponent_noSep _ C2) as N2.
  rewrite Rel_absPath.
  - rewrite !absPath_behind, relLoop_behind_fuel.
    2:{ constructor; [exact noSep_empty | now apply components_noSep]. }
    cbn [relLoop].
    rewrite (isComponent_nonempty _ C), (isComponent_nonempty _ C2).
    cbn [orb]. rewrite (cutElem_last _ N), (cutElem_last _ N2).
    assert (NE : (c ++ "2" =? c) = false).
    { apply String.eqb_neq, append_neq_self. discriminate. }
    rewrite NE, (isComponent_not_dotdot _ C), (isComponent_nonempty _ C).
    rewrite (isComponent_nonempty _ C2), N. reflexivity.
  - apply Forall_app. split; [exact F | now constructor].
  - apply Forall_app. split; [exact F | now constructor].
  - rewrite absPath_sibling. apply append_neq_self. discriminate.
Qed.

Lemma isComponent_not_abs x : isComponent x = true -> IsAbs x = false.
Proof.
  intro C. pose proof (isComponent_noSep _ C) as N.
  destruct x as [| a x]; [reflexivity |].
  apply noSep_cons in N. destruct N as [N _].
  unfold IsAbs. cbn [HasPrefix]. rewrite Ascii.eqb_sym, N. reflexivity.
Qed.

End PathFacts.

(** C5, as the code has it: on a cleaned absolute base [B] other than
    the root, that is [/c1/.../cn] with one name or more: [B] is under
    itself (as is every path); [B/x] is under [B] for every name [x] that
    does not begin with two dots; [B] with a digit appended is not under
    [B]; and the parent directory of [B] is not under [B]. *)
Theorem C5_isUnderPath_on_clean_absolute_bases :
  (forall B, isUnderPath B B = true) /\
  (forall cs x,
     cs <> [] ->
     Forall (fun c => isComponent c = true) cs ->
     isComponent x = true ->
     (Strings.HasPrefix x ".." = false ->
      isUnderPath (absPath cs ++ "/" ++ x) (absPath cs) = true) /\
     isUnderPath (absPath cs ++ "2") (absPath cs) = false /\
     isUnderPath (Filepath.Dir (absPath cs)) (absPath cs) = false).
Proof.
  split.
  - intro B. unfold isUnderPath, Filepath.Rel.
    rewrite String.eqb_refl. reflexivity.
  - intros cs x NE F C.
    destruct (last_cases cs) as [(K & l & ->) | ->]; [| contradiction].
    pose proof F as F'.
    apply Forall_app in F'. destruct F' as [FK Fl].
    inversion Fl as [| ? ? Cl _]; subst.
    split; [| split].
    + intro P. rewrite <- absPath_child.
      unfold isUnderPath. rewrite (Rel_child _ _ F C), P.
      now rewrite (isComponent_not_abs _ C).
    + rewrite <- absPath_sibling.
      unfold isUnderPath. rewrite (Rel_sibling _ _ FK Cl). reflexivity.
    + rewrite (Dir_absPath _ _ FK Cl).
      unfold isUnderPath. rewrite (Rel_parent _ _ FK Cl). reflexivity.
Qed.

Lemma C5_isUnderPath_on_clean_absolute_bases_witness :
  (Strings.HasPrefix "x" ".." = false ->
   isUnderPath (absPath ["var"; "lib"; "k0s"] ++ "/" ++ "x")
               (absPath ["var"; "lib"; "k0s"]) = true) /\
  isUnderPath (absPath ["var"; "lib"; "k0s"] ++ "2")
              (absPath ["var"; "lib"; "k0s"]) = false /\
  isUnderPath (Filepath.Dir (absPath ["var"; "lib"; "k0s"]))
              (absPath ["var"; "lib"; "k0s"]) = false.
Proof.
  apply (proj2 C5_isUnderPath_on_clean_absolute_bases
           ["var"; "lib"; "k0s"] "x").
  - discriminate.
  - repeat constructor.
  - reflexivity.
Defined.

(** C5, as stated, fails: the name [..foo] is an entry of [/data], yet
    [/data/..foo] is not found under [/data]; and at the root base, [/2]
    is under [/] and the parent of [/] is [/] itself, which is under
    [/]. *)
Lemma C5_isUnderPath_counterexample :
  isComponent "..foo" = true /\
  isUnderPath ("/data" ++ "/" ++ "..foo") "/data" = false /\
  isUnderPath ("/" ++ "2") "/" = true /\
  isUnderPath (Filepath.Dir "/") "/" = true.
Proof.
  vm_compute. repeat split.
Qed.


(* ================================================================= *)
(** ** [Run] as a whole *)

Section RunOutcomes.
Context {World : Type} {os : OS World}.
Variable cfg : Config.

(** The four ways [Run] ends. *)
Lemma Run_cases (w : World) :
  (exists err,
     mounter_List w = inl err /\
     Run cfg w = (Some err, w, [EvList (inl err)])) \/
  (exists ms err w1 t1,
     mounter_List w = inr ms /\
     unmountLoop cfg (rev ms) false w = (inl err, w1, t1) /\
     Run cfg w = (Some err, w1, EvList (inr ms) :: t1)) \/
  (exists ms flag w1 t1 e w2,
     mounter_List w = inr ms /\
     unmountLoop cfg (rev ms) false w = (inr flag, w1, t1) /\
     os_RemoveAll (dataDir cfg) w1 = (Some e, w2) /\
     dataDirDone flag (Some e) (dataDir cfg) = false /\
     Run cfg w =
       (Some (Errors.Errorf_w
                (if flag then "failed to delete contents of mounted data-dir"
                 else "failed to delete k0s generated data-dir") e),
        w2,
        EvList (inr ms) :: (t1 ++ [EvRemoveAll (dataDir cfg) (Some e)])%list))
  \/
  (exists ms flag w1 t1 r w2 r2 w3,
     mounter_List w = inr ms /\
     unmountLoop cfg (rev ms) false w = (inr flag, w1, t1) /\
     os_RemoveAll (dataDir cfg) w1 = (r, w2) /\
     dataDirDone flag r (dataDir cfg) = true /\
     os_RemoveAll (runDir cfg) w2 = (r2, w3) /\
     Run cfg w =
       (match r2 with
        | Some e2 =>
            Some (Errors.Errorf_w ("failed to delete " ++ runDir cfg) e2)
        | None => None
        end, w3,
        EvList (inr ms)
          :: (t1 ++ [EvRemoveAll (dataDir cfg) r;
                     EvRemoveAll (runDir cfg) r2])%list)).
Proof.
  destruct (mounter_List w) as [err | ms] eqn:L.
  { left. exists err. split; [reflexivity |]. now apply Run_list_failed. }
  right.
  destruct (unmountLoop cfg (rev ms) false w) as [[[err | flag] w1] t1] eqn:U.
  { left. exists ms, err, w1, t1. repeat split; try assumption.
    now apply Run_aborted. }
  right.
  destruct (os_RemoveAll (dataDir cfg) w1) as [r w2] eqn:R.
  destruct (dataDirDone flag r (dataDir cfg)) eqn:D.
  - right. destruct (os_RemoveAll (runDir cfg) w2) as [r2 w3] eqn:R2.
    exists ms, flag, w1, t1, r, w2, r2, w3. repeat split; try assumption.
    rewrite (Run_unmounted cfg w ms flag w1 t1 L U).
    rewrite (removeDirs_done cfg flag w1 r w2 R D), removeRunDir_eq, R2.
    reflexivity.
  - left. destruct (removeDirs_fatal cfg flag w1 r w2 R D) as (e & -> & E).
    exists ms, flag, w1, t1, e, w2. repeat split; try assumption.
    rewrite (Run_unmounted cfg w ms flag w1 t1 L U), E. reflexivity.
Qed.

Lemma loop_events_unmount (w : World) todo flag :
  Forall (fun ev => isUnmount ev = true)
         (trace (unmountLoop cfg todo flag w)).
Proof.
  apply Forall_forall. intros ev I.
  destruct (loopRun_events cfg _ _ _ _ _ _
              (unmountLoop_run cfg todo flag w) ev I)
    as (v & res & _ & _ & [-> | ->]); reflexivity.
Qed.

Lemma loop_trace_eq (w : World) todo flag r w1 t1 :
  unmountLoop cfg todo flag w = (r, w1, t1) ->
  trace (unmountLoop cfg todo flag w) = t1 /\
  result (unmountLoop cfg todo flag w) = r.
Proof. intros ->. split; reflexivity. Qed.

End RunOutcomes.

(** X1: when listing the mounts fails, [Run] returns that very error
    without unmounting or deleting anything and leaves the world as it
    was; and listing is the only call [Run] makes exactly in that case:
    once the list is there, [Run] always goes on to an unmount or to the
    deletion of the data directory. *)
Theorem X1_list_failure_stops_before_any_effect
    {World : Type} {os : OS World} (cfg : Config) (w : World) :
  (forall err, mounter_List w = inl err ->
     Run cfg w = (Some err, w, [EvList (inl err)])) /\
  ((exists r, trace (Run cfg w) = [EvList r]) <->
   (exists err, mounter_List w = inl err)).
Proof.
  split.
  - intros err L. now apply Run_list_failed.
  - split.
    + intros (r & T).
      destruct (Run_cases cfg w)
        as [(err & L & E)
           | [(ms & err & w1 & t1 & L & U & E)
             | [(ms & flag & w1 & t1 & e & w2 & L & U & R & D & E)
               | (ms & flag & w1 & t1 & r1 & w2 & r2 & w3
                  & L & U & R & D & R2 & E)]]].
      * now exists err.
      * exfalso. rewrite E in T. unfold trace in T. simpl in T.
        injection T as _ ->.
        apply unmountLoop_run_eq in U.
        destruct (loopRun_error cfg _ _ _ _ _ _ U err eq_refl) as (p & e & []).
      * exfalso. rewrite E in T. unfold trace in T. simpl in T.
        injection T as _ T. destruct t1; discriminate.
      * exfalso. rewrite E in T. unfold trace in T. simpl in T.
        injection T as _ T. destruct t1; discriminate.
    + intros (err & L). exists (inl err).
      now rewrite (Run_list_failed cfg w err L).
Qed.

Lemma X1_list_failure_stops_before_any_effect_witness :
  @Run Fake.FakeWorld Fake.unreadableOS Fake.cfg (Fake.node [] []) =
    (Some Fake.EACCES, Fake.node [] [], [EvList (inl Fake.EACCES)]).
Proof.
  apply (proj1 (@X1_list_failure_stops_before_any_effect
                  Fake.FakeWorld Fake.unreadableOS Fake.cfg (Fake.node [] []))
           Fake.EACCES).
  reflexivity.
Defined.

(** X2: [Run] only ever unmounts what it owns: every unmount it calls,
    normal or lazy, is on the path of an enumerated record, that path is
    not [k0sVars.DataDir], and it is under
    [filepath.Join(dataDir, "kubelet")] or under [k0sVars.DataDir]. *)
Theorem X2_unmounts_only_owned_records
    {World : Type} {os : OS World} (cfg : Config) (w : World) (ev : event) :
  In ev (trace (Run cfg w)) -> isUnmount ev = true ->
  exists ms v res,
    mounter_List w = inr ms /\ In v ms /\
    (ev = EvUnmount (Path v) res \/ ev = EvUnmountLazy (Path v) res) /\
    Path v <> DataDir (k0sVars cfg) /\
    (isUnderPath (Path v) (Filepath.Join [dataDir cfg; "kubelet"]) = true \/
     isUnderPath (Path v) (DataDir (k0sVars cfg)) = true).
Proof.
  intros I M.
  assert (K : forall ms w1 t1 r,
            mounter_List w = inr ms ->
            unmountLoop cfg (rev ms) false w = (r, w1, t1) ->
            In ev t1 ->
            exists ms v res,
              mounter_List w = inr ms /\ In v ms /\
              (ev = EvUnmount (Path v) res \/ ev = EvUnmountLazy (Path v) res) /\
              Path v <> DataDir (k0sVars cfg) /\
              (isUnderPath (Path v) (Filepath.Join [dataDir cfg; "kubelet"])
               = true \/
               isUnderPath (Path v) (DataDir (k0sVars cfg)) = true)).
  { intros ms w1 t1 r L U I1. apply unmountLoop_run_eq in U.
    destruct (loopRun_events cfg _ _ _ _ _ _ U ev I1) as (v & res & Iv & O & E).
    exists ms, v, res. rewrite <- in_rev in Iv.
    repeat split; try assumption.
    - unfold owned, classify in O. intro P.
      apply String.eqb_eq in P. rewrite P in O. discriminate.
    - unfold owned, classify in O.
      destruct (Path v =? DataDir (k0sVars cfg)); [discriminate |].
      destruct (isUnderPath (Path v) (Filepath.Join [dataDir cfg; "kubelet"]));
        [now left |].
      destruct (isUnderPath (Path v) (DataDir (k0sVars cfg)));
        [now right | discriminate]. }
  destruct (Run_cases cfg w)
    as [(err & L & E)
       | [(ms & err & w1 & t1 & L & U & E)
         | [(ms & flag & w1 & t1 & e & w2 & L & U & R & D & E)
           | (ms & flag & w1 & t1 & r1 & w2 & r2 & w3
              & L & U & R & D & R2 & E)]]];
    rewrite E in I; unfold trace in I; simpl in I.
  - destruct I as [<- | []]. discriminate.
  - destruct I as [<- | I]; [discriminate |]. eapply K; eassumption.
  - destruct I as [<- | I]; [discriminate |].
    apply in_app_or in I. destruct I as [I | [<- | []]];
      [eapply K; eassumption | discriminate].
  - destruct I as [<- | I]; [discriminate |].
    apply in_app_or in I. destruct I as [I | [<- | [<- | []]]];
      [eapply K; eassumption | discriminate | discriminate].
Qed.

Lemma X2_unmounts_only_owned_records_witness :
  exists ms v res,
    mounter_List (Fake.node ["/data/kubelet"] []) = inr ms /\ In v ms /\
    (EvUnmountLazy "/data/kubelet" None = EvUnmount (Path v) res \/
     EvUnmountLazy "/data/kubelet" None = EvUnmountLazy (Path v) res) /\
    Path v <> "/data" /\
    (isUnderPath (Path v) (Filepath.Join ["/data"; "kubelet"]) = true \/
     isUnderPath (Path v) "/data" = true).
Proof.
  apply (X2_unmounts_only_owned_records Fake.cfg
           (Fake.node ["/data/kubelet"] [])
           (EvUnmountLazy "/data/kubelet" None)).
  - vm_compute. tauto.
  - reflexivity.
Defined.

(** X3: the calls of [Run] come in a fixed order: the listing first, then
    unmounts only, then the deletions, which are none, or that of the
    data directory alone, or that of the data directory followed by that
    of the run directory.  So nothing is unmounted once a deletion has
    begun, and the run directory is never deleted before the data
    directory. *)
Theorem X3_calls_in_fixed_order
    {World : Type} {os : OS World} (cfg : Config) (w : World) :
  exists r us ds,
    trace (Run cfg w) = (EvList r :: us ++ ds)%list /\
    Forall (fun ev => isUnmount ev = true) us /\
    (ds = [] \/
     (exists r1, ds = [EvRemoveAll (dataDir cfg) r1]) \/
     (exists r1 r2, ds = [EvRemoveAll (dataDir cfg) r1;
                          EvRemoveAll (runDir cfg) r2])).
Proof.
  destruct (Run_cases cfg w)
    as [(err & L & E)
       | [(ms & err & w1 & t1 & L & U & E)
         | [(ms & flag & w1 & t1 & e & w2 & L & U & R & D & E)
           | (ms & flag & w1 & t1 & r1 & w2 & r2 & w3
              & L & U & R & D & R2 & E)]]];
    rewrite E; unfold trace; simpl.
  - exists (inl err), [], []. repeat split; [constructor | now left].
  - exists (inr ms), t1, []. rewrite app_nil_r. split; [reflexivity |].
    split; [| now left].
    destruct (loop_trace_eq cfg _ _ _ _ _ _ U) as [<- _].
    apply loop_events_unmount.
  - exists (inr ms), t1, [EvRemoveAll (dataDir cfg) (Some e)].
    split; [reflexivity |]. split; [| right; left; now exists (Some e)].
    destruct (loop_trace_eq cfg _ _ _ _ _ _ U) as [<- _].
    apply loop_events_unmount.
  - exists (inr ms), t1,
      [EvRemoveAll (dataDir cfg) r1; EvRemoveAll (runDir cfg) r2].
    split; [reflexivity |]. split; [| right; right; now exists r1, r2].
    destruct (loop_trace_eq cfg _ _ _ _ _ _ U) as [<- _].
    apply loop_events_unmount.
Qed.

(** X4: [Run] fails only when a call fails: if every call it makes
    returns nil, [Run] returns nil. *)
Theorem X4_no_failed_call_no_error
    {World : Type} {os : OS World} (cfg : Config) (w : World) :
  (forall ev, In ev (trace (Run cfg w)) -> evFailed ev = false) ->
  result (Run cfg w) = None.
Proof.
  intro H.
  destruct (Run_cases cfg w)
    as [(err & L & E)
       | [(ms & err & w1 & t1 & L & U & E)
         | [(ms & flag & w1 & t1 & e & w2 & L & U & R & D & E)
           | (ms & flag & w1 & t1 & r1 & w2 & r2 & w3
              & L & U & R & D & R2 & E)]]];
    rewrite E in *; unfold trace, result in *; simpl in *.
  - discriminate (H _ (or_introl eq_refl)).
  - apply unmountLoop_run_eq in U.
    destruct (loopRun_error cfg _ _ _ _ _ _ U err eq_refl) as (p & e & I).
    discriminate (H _ (or_intror I)).
  - assert (I : In (EvRemoveAll (dataDir cfg) (Some e))
                   (t1 ++ [EvRemoveAll (dataDir cfg) (Some e)])).
    { apply in_or_app. right. now left. }
    discriminate (H _ (or_intror I)).
  - destruct r2 as [e2 |]; [| reflexivity].
    assert (I : In (EvRemoveAll (runDir cfg) (Some e2))
                   (t1 ++ [EvRemoveAll (dataDir cfg) r1;
                           EvRemoveAll (runDir cfg) (Some e2)])).
    { apply in_or_app. right. right. now left. }
    discriminate (H _ (or_intror I)).
Qed.

Lemma X4_no_failed_call_no_error_witness :
  result (Run Fake.cfg Fake.plainNode) = None.
Proof.
  apply (X4_no_failed_call_no_error Fake.cfg Fake.plainNode).
  vm_compute. intros ev H.
  repeat (destruct H as [<- | H]; [reflexivity |]). destruct H.
Defined.

(** A failed normal unmount is directly followed by the lazy unmount of
    the same path. *)
Lemma loopRun_failed_then_lazy
    {World : Type} {os : OS World} (cfg : Config)
    todo flag (w : World) r w' t :
  loopRun cfg todo flag w r w' t ->
  forall pre p e post, t = (pre ++ EvUnmount p (Some e) :: post)%list ->
    exists res post', post = EvUnmountLazy p res :: post'.
Proof.
  induction 1 as [flag w | v todo flag w r w' t C _ IH
                  | v todo flag w r w' t C _ IH
                  | v todo flag w w1 r w' t C U _ IH
                  | v todo flag w e1 w1 w2 r w' t C U L _ IH
                  | v todo flag w e1 w1 e2 w2 C U L ];
    intros pre p e post E.
  - destruct pre; discriminate.
  - eauto.
  - eauto.
  - destruct pre as [| ev pre]; [discriminate |].
    injection E as _ E. eauto.
  - destruct pre as [| ev pre].
    + injection E as <- _ <-. eauto.
    + injection E as _ E. destruct pre as [| ev' pre]; [discriminate |].
      injection E as _ E. eauto.
  - destruct pre as [| ev pre].
    + injection E as <- _ <-. eauto.
    + injection E as _ E. destruct pre as [| ev' pre]; [discriminate |].
      injection E as _ E. destruct pre; discriminate.
Qed.

(** X5: every error [Run] returns comes from a failed call of its trace.
    It is the listing error itself; or "failed unmount <path>" for a
    failed lazy unmount, an error that carries neither of the two unmount
    errors; or an error wrapping with [%w] the failure of a deletion, in
    which [errors.As] finds the same path error as in that failure, so
    that [errorIsUnlinkat] judges both alike. *)
Theorem X5_error_origin
    {World : Type} {os : OS World} (cfg : Config) (w : World) (err : error) :
  result (Run cfg w) = Some err ->
  mounter_List w = inl err \/
  (exists p e,
     In (EvUnmountLazy p (Some e)) (trace (Run cfg w)) /\
     err = errorString ("failed unmount " ++ p) /\
     Errors.hasPathError err = false) \/
  (exists path e prefix,
     In (EvRemoveAll path (Some e)) (trace (Run cfg w)) /\
     err = Errors.Errorf_w prefix e /\
     Errors.AsPathError err = Errors.AsPathError e /\
     forall dir, errorIsUnlinkat (Some err) dir = errorIsUnlinkat (Some e) dir).
Proof.
  intro H.
  destruct (Run_cases cfg w)
    as [(err0 & L & E)
       | [(ms & err0 & w1 & t1 & L & U & E)
         | [(ms & flag & w1 & t1 & e & w2 & L & U & R & D & E)
           | (ms & flag & w1 & t1 & r1 & w2 & r2 & w3
              & L & U & R & D & R2 & E)]]];
    rewrite E in *; unfold trace, result in *; simpl in *.
  - left. congruence.
  - right. left. injection H as <-.
    apply unmountLoop_run_eq in U.
    destruct (loopRun_error cfg _ _ _ _ _ _ U err0 eq_refl) as (p & e & I).
    pose proof (loopRun_lazy_failed cfg _ _ _ _ _ _ U p e I) as F.
    injection F as ->. exists p, e. repeat split. now right.
  - right. right. injection H as <-.
    exists (dataDir cfg), e,
      (if flag then "failed to delete contents of mounted data-dir"
       else "failed to delete k0s generated data-dir").
    repeat split. right. apply in_or_app. right. now left.
  - right. right. destruct r2 as [e2 |]; [| discriminate].
    injection H as <-.
    exists (runDir cfg), e2, ("failed to delete " ++ runDir cfg).
    repeat split. right. apply in_or_app. right. right. now left.
Qed.

Lemma X5_error_origin_witness :
  mounter_List (Fake.node ["/data/kubelet"] ["/data/kubelet"])
  = inl (errorString "failed unmount /data/kubelet") \/
  (exists p e,
     In (EvUnmountLazy p (Some e))
        (trace (Run Fake.cfg (Fake.node ["/data/kubelet"] ["/data/kubelet"])))
     /\ errorString "failed unmount /data/kubelet"
        = errorString ("failed unmount " ++ p) /\
     Errors.hasPathError (errorString "failed unmount /data/kubelet") = false)
  \/
  (exists path e prefix,
     In (EvRemoveAll path (Some e))
        (trace (Run Fake.cfg (Fake.node ["/data/kubelet"] ["/data/kubelet"])))
     /\ errorString "failed unmount /data/kubelet" = Errors.Errorf_w prefix e /\
     Errors.AsPathError (errorString "failed unmount /data/kubelet")
     = Errors.AsPathError e /\
     forall dir,
       errorIsUnlinkat (Some (errorString "failed unmount /data/kubelet")) dir
       = errorIsUnlinkat (Some e) dir).
Proof.
  apply (X5_error_origin Fake.cfg
           (Fake.node ["/data/kubelet"] ["/data/kubelet"])).
  vm_compute. reflexivity.
Defined.

(** X6: [Run] returns nil only when the whole step was carried out: the
    listing succeeded; a normal unmount was attempted on every owned
    record, in reverse order of the enumeration, and each one that
    failed was directly followed by a lazy unmount that succeeded; the
    data directory was deleted, or its deletion failed in the tolerated
    way; and the deletion of the run directory, the last call, returned
    nil. *)
Theorem X6_success_means_all_done
    {World : Type} {os : OS World} (cfg : Config) (w : World) :
  result (Run cfg w) = None ->
  exists ms t1 r,
    mounter_List w = inr ms /\
    trace (Run cfg w) =
      (EvList (inr ms) :: t1 ++ [EvRemoveAll (dataDir cfg) r;
                                 EvRemoveAll (runDir cfg) None])%list /\
    Forall (fun ev => isUnmount ev = true) t1 /\
    attempts t1 = rev (map Path (filter (owned cfg) ms)) /\
    (forall pre p e post,
       t1 = (pre ++ EvUnmount p (Some e) :: post)%list ->
       exists post', post = EvUnmountLazy p None :: post') /\
    (r = None \/ errorIsUnlinkat r (dataDir cfg) = true).
Proof.
  intro H.
  destruct (Run_cases cfg w)
    as [(err0 & L & E)
       | [(ms & err0 & w1 & t1 & L & U & E)
         | [(ms & flag & w1 & t1 & e & w2 & L & U & R & D & E)
           | (ms & flag & w1 & t1 & r1 & w2 & r2 & w3
              & L & U & R & D & R2 & E)]]];
    rewrite E in *; unfold trace, result in *; simpl in *;
    try discriminate.
  destruct r2 as [e2 |]; [discriminate |].
  exists ms, t1, r1.
  destruct (loop_trace_eq cfg _ _ _ _ _ _ U) as [T _].
  pose proof (loop_events_unmount cfg w (rev ms) false) as A. rewrite T in A.
  apply unmountLoop_run_eq in U.
  destruct (loopRun_attempts cfg _ _ _ _ _ _ U) as [_ Q].
  repeat split; try assumption.
  - rewrite (Q flag eq_refl). clear.
    induction ms as [| v ms IH]; [reflexivity |]. simpl.
    rewrite filter_app, map_app, IH. simpl.
    destruct (owned cfg v); simpl; [reflexivity | now rewrite app_nil_r].
  - intros pre p e post S.
    destruct (loopRun_failed_then_lazy cfg _ _ _ _ _ _ U _ _ _ _ S)
      as ([e' |] & post' & ->); [| now exists post'].
    exfalso.
    assert (I : In (EvUnmountLazy p (Some e')) t1).
    { rewrite S. apply in_or_app. right. right. now left. }
    discriminate (loopRun_lazy_failed cfg _ _ _ _ _ _ U p e' I).
  - destruct r1 as [e1 |]; [right | now left].
    simpl in D. apply andb_true_iff in D. tauto.
Qed.

Lemma X6_success_means_all_done_witness :
  exists ms t1 r,
    mounter_List (Fake.node ["/data/kubelet"] []) = inr ms /\
    trace (Run Fake.cfg (Fake.node ["/data/kubelet"] [])) =
      (EvList (inr ms) :: t1 ++ [EvRemoveAll "/data" r;
                                 EvRemoveAll "/run/k0s" None])%list /\
    Forall (fun ev => isUnmount ev = true) t1 /\
    attempts t1 = rev (map Path (filter (owned Fake.cfg) ms)) /\
    (forall pre p e post,
       t1 = (pre ++ EvUnmount p (Some e) :: post)%list ->
       exists post', post = EvUnmountLazy p None :: post') /\
    (r = None \/ errorIsUnlinkat r "/data" = true).
Proof.
  apply (X6_success_means_all_done Fake.cfg (Fake.node ["/data/kubelet"] [])).
  vm_compute. reflexivity.
Defined.

(** X7: the tolerance is switched on by a mount record only: when no
    enumerated record's path equals [k0sVars.DataDir] (an empty mount
    table included), any failure of the deletion of the data directory,
    even the unlinking of the data directory itself, makes [Run] return
    "failed to delete k0s generated data-dir: ..." with the run directory
    left as it is. *)
Theorem X7_unmounted_data_dir_failure_is_fatal
    {World : Type} {os : OS World} (cfg : Config) (w : World)
    ms flag w1 t1 e w2 :
  mounter_List w = inr ms ->
  (forall v, In v ms -> Path v <> DataDir (k0sVars cfg)) ->
  unmountLoop cfg (rev ms) false w = (inr flag, w1, t1) ->
  os_RemoveAll (dataDir cfg) w1 = (Some e, w2) ->
  flag = false /\
  Run cfg w =
    (Some (Errors.Errorf_w "failed to delete k0s generated data-dir" e), w2,
     EvList (inr ms) :: (t1 ++ [EvRemoveAll (dataDir cfg) (Some e)])%list).
Proof.
  intros L N U R.
  assert (F : flag = false).
  { pose proof (loopRun_flag cfg _ _ _ _ _ _
                  (unmountLoop_run_eq cfg _ _ _ _ _ _ U) flag eq_refl) as F.
    simpl in F. rewrite F.
    destruct (existsb (isDataDirRoot cfg) (rev ms)) eqn:X; [| reflexivity].
    apply existsb_exists in X. destruct X as (v & I & P).
    rewrite <- in_rev in I. apply String.eqb_eq in P.
    now destruct (N v I). }
  split; [exact F |]. subst flag.
  rewrite (Run_unmounted cfg w ms false w1 t1 L U).
  destruct (removeDirs_fatal cfg false w1 (Some e) w2 R eq_refl)
    as (e' & E & ->).
  injection E as <-. reflexivity.
Qed.

Lemma X7_unmounted_data_dir_failure_is_fatal_witness :
  false = false /\
  Run {| dataDir := "/data"; runDir := "/run/k0s";
         k0sVars := {| DataDir := "/srv/k0s" |} |}
      {| Fake.mounts := [Fake.mkMount "/"; Fake.mkMount "/data"];
         Fake.files := ["/data"; "/data/db"; "/run/k0s"];
         Fake.busy := []; Fake.stuck := [] |} =
    (Some (Errors.Errorf_w "failed to delete k0s generated data-dir"
             (PathError "unlinkat" "/data" Fake.EBUSY)),
     {| Fake.mounts := [Fake.mkMount "/"; Fake.mkMount "/data"];
        Fake.files := ["/data"; "/run/k0s"];
        Fake.busy := []; Fake.stuck := [] |},
     EvList (inr [Fake.mkMount "/"; Fake.mkMount "/data"])
       :: ([] ++ [EvRemoveAll "/data"
                    (Some (PathError "unlinkat" "/data" Fake.EBUSY))])%list).
Proof.
  apply (X7_unmounted_data_dir_failure_is_fatal
           {| dataDir := "/data"; runDir := "/run/k0s";
              k0sVars := {| DataDir := "/srv/k0s" |} |}
           {| Fake.mounts := [Fake.mkMount "/"; Fake.mkMount "/data"];
              Fake.files := ["/data"; "/data/db"; "/run/k0s"];
              Fake.busy := []; Fake.stuck := [] |}
           [Fake.mkMount "/"; Fake.mkMount "/data"] false
           {| Fake.mounts := [Fake.mkMount "/"; Fake.mkMount "/data"];
              Fake.files := ["/data"; "/data/db"; "/run/k0s"];
              Fake.busy := []; Fake.stuck := [] |}).
  - reflexivity.
  - intros v [<- | [<- | []]]; discriminate.
  - vm_compute. reflexivity.
  - vm_compute. reflexivity.
Defined.

(* ================================================================= *)
(** ** Containment of absolute paths, element by element *)

Section PathOrder.
Import Strings Filepath.

Lemma SplitSep_noSep s : Forall noSep (SplitSep s).
Proof.
  induction s as [| c s IH]; simpl.
  - constructor; [reflexivity | constructor].
  - destruct (Ascii.eqb c "/") eqn:C.
    + constructor; [reflexivity | exact IH].
    + destruct (SplitSep s) as [| e r].
      * constructor; [| constructor]. unfold noSep. simpl. now rewrite C.
      * inversion IH as [| ? ? Ne Nr]; subst.
        constructor; [| exact Nr]. unfold noSep in *. simpl. now rewrite C, Ne.
Qed.

(** Cleaning an absolute path keeps names only. *)
Lemma cleanStep_rooted_components out e :
  noSep e ->
  Forall (fun c => isComponent c = true) out ->
  Forall (fun c => isComponent c = true) (cleanStep true out e).
Proof.
  intros N F. unfold cleanStep.
  destruct (e =? "") eqn:E1; [exact F |].
  destruct (e =? ".") eqn:E2; [exact F |]. simpl.
  destruct (e =? "..") eqn:E3.
  - destruct out as [| top out]; [constructor |].
    destruct (top =? ".."); [exact F |]. now inversion F.
  - constructor; [| exact F].
    unfold isComponent. rewrite E1, E2, E3, N. reflexivity.
Qed.

Lemma fold_cleanStep_rooted_components es : forall out,
  Forall noSep es ->
  Forall (fun c => isComponent c = true) out ->
  Forall (fun c => isComponent c = true) (fold_left (cleanStep true) es out).
Proof.
  induction es as [| e es IH]; intros out N F; [exact F |].
  inversion N as [| ? ? Ne Nes]; subst. simpl.
  apply IH; [exact Nes |]. now apply cleanStep_rooted_components.
Qed.

Lemma pathElems_components p :
  Forall (fun c => isComponent c = true) (pathElems p).
Proof.
  unfold pathElems. apply Forall_rev.
  apply fold_cleanStep_rooted_components; [apply SplitSep_noSep | constructor].
Qed.

(** The cleaned form of an absolute path. *)
Lemma Clean_abs p : IsAbs p = true -> Clean p = absPath (pathElems p).
Proof.
  intro A. destruct p as [| c p]; [discriminate |].
  unfold Clean. change (String c p =? "") with false. cbv iota.
  unfold IsAbs in A. rewrite A. reflexivity.
Qed.

Lemma Clean_abs_idempotent p : IsAbs p = true -> Clean (Clean p) = Clean p.
Proof.
  intro A. rewrite (Clean_abs p A).
  apply Clean_absPath, pathElems_components.
Qed.

(** [Rel] looks at its arguments through [Clean] only. *)
Lemma Rel_Clean b p :
  Clean (Clean b) = Clean b -> Clean (Clean p) = Clean p ->
  Rel b p = Rel (Clean b) (Clean p).
Proof.
  intros Eb Ep. unfold Rel. now rewrite Eb, Ep.
Qed.

Lemma JoinSep_behind K c r :
  JoinSep (K ++ c :: r) = behind K (JoinSep (c :: r)).
Proof.
  induction K as [| e K IH]; [reflexivity |].
  change (JoinSep ((e :: K) ++ c :: r))
    with (JoinSep (e :: (K ++ c :: r))).
  destruct (K ++ c :: r)%list as [| x l] eqn:E.
  - destruct K; discriminate.
  - change (JoinSep (e :: x :: l)) with (e ++ String "/" (JoinSep (x :: l))).
    rewrite IH. reflexivity.
Qed.

Lemma absPath_tail K c r :
  absPath (K ++ c :: r) = behind ("" :: K) (JoinSep (c :: r)).
Proof.
  unfold absPath. now rewrite JoinSep_behind.
Qed.

Lemma absPath_inj bs ts :
  Forall (fun c => isComponent c = true) bs ->
  Forall (fun c => isComponent c = true) ts ->
  absPath ts = absPath bs -> ts = bs.
Proof.
  intros FB FT E. apply (f_equal SplitSep) in E.
  rewrite (SplitSep_absPath _ FB), (SplitSep_absPath _ FT) in E.
  destruct bs as [| b bs], ts as [| t ts]; try reflexivity.
  - inversion E; subst. inversion FT as [| ? ? C _]. discriminate.
  - inversion E; subst. inversion FB as [| ? ? C _]. discriminate.
  - inversion E; subst. reflexivity.
Qed.

Lemma JoinSep_nonempty x r :
  isComponent x = true -> (JoinSep (x :: r) =? "") = false.
Proof.
  intro C. pose proof (isComponent_nonempty _ C) as N.
  destruct x as [| a x]; [discriminate |].
  destruct r; reflexivity.
Qed.

Lemma cutElem_JoinSep x r :
  isComponent x = true -> fst (cutElem (JoinSep (x :: r))) = x.
Proof.
  intro C. pose proof (isComponent_noSep _ C) as N.
  destruct r as [| y r].
  - simpl. now rewrite (cutElem_last _ N).
  - change (JoinSep (x :: y :: r)) with (x ++ String "/" (JoinSep (y :: r))).
    now rewrite (cutElem_sep _ _ N).
Qed.

(** From a directory to anything below it. *)
Lemma Rel_descendant K x r :
  Forall (fun c => isComponent c = true) K ->
  Forall (fun c => isComponent c = true) (x :: r) ->
  Rel (absPath K) (absPath (K ++ x :: r)) = Some (JoinSep (x :: r)).
Proof.
  intros FK FX.
  assert (FT : Forall (fun c => isComponent c = true) (K ++ x :: r)).
  { apply Forall_app. now split. }
  rewrite Rel_absPath; [| exact FK | exact FT |].
  2:{ intro E. apply absPath_inj in E; [| exact FK | exact FT].
      apply (f_equal (@List.length string)) in E.
      rewrite length_app in E. simpl in E. lia. }
  destruct (last_cases K) as [(K0 & l & ->) | ->].
  - apply Forall_app in FK. destruct FK as [FK0 Fl].
    inversion Fl as [| ? ? Cl _]; subst.
    pose proof (isComponent_noSep _ Cl) as Nl.
    rewrite <- app_assoc. simpl ([l] ++ x :: r)%list.
    rewrite (absPath_behind K0 l), (absPath_tail K0 l (x :: r)).
    change (JoinSep (l :: x :: r)) with (l ++ String "/" (JoinSep (x :: r))).
    rewrite relLoop_behind_fuel.
    2:{ constructor; [exact noSep_empty | now apply components_noSep]. }
    cbn [relLoop]. rewrite (isComponent_nonempty _ Cl).
    assert (NE : (l ++ String "/" (JoinSep (x :: r)) =? "") = false)
      by (destruct l; reflexivity).
    rewrite NE. cbn [orb].
    rewrite (cutElem_last _ Nl), (cutElem_sep _ _ Nl), String.eqb_refl.
    rewrite relLoop_done. reflexivity.
  - change (absPath []) with (behind [""] "").
    rewrite (absPath_tail [] x r), relLoop_behind_fuel.
    + rewrite relLoop_done. reflexivity.
    + constructor; [exact noSep_empty | constructor].
Qed.

(** From a path that has left the way to the target: up first. *)
Lemma Rel_diverge K y r' ts' :
  Forall (fun c => isComponent c = true) K ->
  Forall (fun c => isComponent c = true) (y :: r') ->
  Forall (fun c => isComponent c = true) ts' ->
  match ts' with x :: _ => x <> y | [] => True end ->
  exists s, Rel (absPath (K ++ y :: r')) (absPath (K ++ ts')) = Some (".." ++ s).
Proof.
  intros FK FY FT D.
  assert (FB : Forall (fun c => isComponent c = true) (K ++ y :: r')).
  { apply Forall_app. now split. }
  assert (FT' : Forall (fun c => isComponent c = true) (K ++ ts')).
  { apply Forall_app. now split. }
  inversion FY as [| ? ? Cy _]; subst.
  pose proof (JoinSep_nonempty y r' Cy) as NB.
  rewrite Rel_absPath; [| exact FB | exact FT' |].
  2:{ intro E. apply absPath_inj in E; [| exact FB | exact FT'].
      apply app_inv_head in E. subst ts'. now apply D. }
  destruct ts' as [| x r].
  - rewrite app_nil_r.
    destruct (last_cases K) as [(K0 & l & ->) | ->].
    + apply Forall_app in FK. destruct FK as [FK0 Fl].
      inversion Fl as [| ? ? Cl _]; subst.
      pose proof (isComponent_noSep _ Cl) as Nl.
      rewrite <- app_assoc. simpl ([l] ++ y :: r')%list.
      rewrite (absPath_behind K0 l), (absPath_tail K0 l (y :: r')).
      change (JoinSep (l :: y :: r')) with (l ++ String "/" (JoinSep (y :: r'))).
      rewrite relLoop_behind_fuel.
      2:{ constructor; [exact noSep_empty | now apply components_noSep]. }
      cbn [relLoop]. rewrite (isComponent_nonempty _ Cl).
      assert (NE : (l ++ String "/" (JoinSep (y :: r')) =? "") = false)
        by (destruct l; reflexivity).
      rewrite NE. cbn [orb].
      rewrite (cutElem_last _ Nl), (cutElem_sep _ _ Nl), String.eqb_refl.
      rewrite relLoop_target_done, NB. simpl. eexists. reflexivity.
    + change (absPath []) with (behind [""] "").
      rewrite (absPath_tail [] y r'), relLoop_behind_fuel.
      2:{ constructor; [exact noSep_empty | constructor]. }
      rewrite relLoop_target_done, NB. simpl. eexists. reflexivity.
  - inversion FT as [| ? ? Cx _]; subst.
    pose proof (JoinSep_nonempty x r Cx) as NT.
    rewrite (absPath_tail K y r'), (absPath_tail K x r), relLoop_behind_fuel.
    2:{ constructor; [exact noSep_empty | now apply components_noSep]. }
    cbn [relLoop]. rewrite NB, NT. cbn [orb].
    pose proof (cutElem_JoinSep y r' Cy) as Hy.
    pose proof (cutElem_JoinSep x r Cx) as Hx.
    destruct (cutElem (JoinSep (y :: r'))) as [be b'].
    destruct (cutElem (JoinSep (x :: r))) as [te t']. simpl in Hy, Hx. subst.
    apply String.eqb_neq in D. rewrite D.
    rewrite (isComponent_not_dotdot _ Cy), NB, NT. simpl. eexists. reflexivity.
Qed.

Lemma HasPrefix_JoinSep x r :
  isComponent x = true ->
  HasPrefix (JoinSep (x :: r)) ".." = HasPrefix x ".." /\
  IsAbs (JoinSep (x :: r)) = false.
Proof.
  intro C. pose proof (isComponent_not_abs _ C) as A.
  destruct r as [| y r]; [now split |].
  change (JoinSep (x :: y :: r)) with (x ++ String "/" (JoinSep (y :: r))).
  destruct x as [| a [| b x]]; [discriminate | |].
  - split; [| exact A]. cbn [append HasPrefix].
    change (Ascii.eqb "." "/") with false. now rewrite !andb_false_r.
  - split; [reflexivity | exact A].
Qed.

Lemma underElems_app K bs ts :
  underElems (K ++ bs) (K ++ ts) = underElems bs ts.
Proof.
  induction K as [| e K IH]; [reflexivity |].
  simpl. now rewrite String.eqb_refl, IH.
Qed.

(** Two lists share a beginning and then part ways. *)
Lemma diverge (bs : list string) : forall ts,
  exists K bs' ts',
    bs = (K ++ bs')%list /\ ts = (K ++ ts')%list /\
    match bs', ts' with
    | y :: _, x :: _ => x <> y
    | _, _ => True
    end.
Proof.
  induction bs as [| b bs IH]; intro ts.
  - exists [], [], ts. auto.
  - destruct ts as [| t ts].
    + exists [], (b :: bs), []. auto.
    + destruct (string_dec t b) as [-> | N].
      * destruct (IH ts) as (K & bs' & ts' & -> & -> & D).
        exists (b :: K), bs', ts'. auto.
      * exists [], (b :: bs), (t :: ts). auto.
Qed.

Lemma isUnderPath_absPath bs ts :
  Forall (fun c => isComponent c = true) bs ->
  Forall (fun c => isComponent c = true) ts ->
  isUnderPath (absPath ts) (absPath bs) = underElems bs ts.
Proof.
  intros FB FT.
  destruct (diverge bs ts) as (K & bs' & ts' & -> & -> & D).
  apply Forall_app in FB. destruct FB as [FK FB'].
  apply Forall_app in FT. destruct FT as [_ FT'].
  rewrite underElems_app. unfold isUnderPath.
  destruct bs' as [| y r'].
  - destruct ts' as [| x r].
    + unfold Rel. rewrite String.eqb_refl. reflexivity.
    + rewrite app_nil_r, (Rel_descendant K x r FK FT').
      inversion FT' as [| ? ? Cx _]; subst.
      destruct (HasPrefix_JoinSep x r Cx) as [-> ->]. simpl.
      now rewrite andb_true_r.
  - assert (D' : match ts' with x :: _ => x <> y | [] => True end)
      by (destruct ts'; exact D).
    destruct (Rel_diverge K y r' ts' FK FB' FT' D') as (s & ->).
    destruct ts' as [| x r]; [reflexivity |]. simpl.
    apply String.eqb_neq in D. rewrite String.eqb_sym, D. reflexivity.
Qed.

End PathOrder.

Section PathOrderFacts.
Import Strings Filepath.

Lemma underElems_trans cs : forall bs ts,
  underElems cs bs = true -> underElems bs ts = true ->
  underElems cs ts = true.
Proof.
  induction cs as [| c cs IH]; intros bs ts H1 H2.
  - destruct bs as [| b bs]; [exact H2 |].
    destruct ts as [| t ts]; [discriminate |].
    simpl in *. apply andb_true_iff in H2. destruct H2 as [E _].
    apply String.eqb_eq in E. now subst.
  - destruct bs as [| b bs]; [discriminate |].
    destruct ts as [| t ts]; [discriminate |].
    simpl in *. apply andb_true_iff in H1. destruct H1 as [E1 H1].
    apply andb_true_iff in H2. destruct H2 as [E2 H2].
    apply String.eqb_eq in E1. apply String.eqb_eq in E2. subst.
    rewrite String.eqb_refl. simpl. now apply (IH bs).
Qed.

Lemma underElems_antisym bs : forall ts,
  underElems bs ts = true -> underElems ts bs = true -> bs = ts.
Proof.
  induction bs as [| b bs IH]; intros ts H1 H2.
  - destruct ts; [reflexivity | discriminate].
  - destruct ts as [| t ts]; [discriminate |].
    simpl in *. apply andb_true_iff in H1. destruct H1 as [E1 H1].
    apply andb_true_iff in H2. destruct H2 as [_ H2].
    apply String.eqb_eq in E1. subst. f_equal. now apply IH.
Qed.

(** Cleaning a relative path keeps it relative. *)
Lemma cleanStep_relative_elems out e :
  noSep e ->
  Forall (fun c => (c =? "") = false /\ noSep c) out ->
  Forall (fun c => (c =? "") = false /\ noSep c) (cleanStep false out e).
Proof.
  intros N F. unfold cleanStep.
  destruct (e =? "") eqn:E1; [exact F |].
  destruct (e =? ".") eqn:E2; [exact F |]. simpl.
  destruct (e =? "..") eqn:E3.
  - destruct out as [| top out].
    + constructor; [split; reflexivity | constructor].
    + destruct (top =? "..").
      * constructor; [split; reflexivity | exact F].
      * now inversion F.
  - constructor; [split; assumption | exact F].
Qed.

Lemma fold_cleanStep_relative_elems es : forall out,
  Forall noSep es ->
  Forall (fun c => (c =? "") = false /\ noSep c) out ->
  Forall (fun c => (c =? "") = false /\ noSep c)
         (fold_left (cleanStep false) es out).
Proof.
  induction es as [| e es IH]; intros out N F; [exact F |].
  inversion N as [| ? ? Ne Nes]; subst. simpl.
  apply IH; [exact Nes |]. now apply cleanStep_relative_elems.
Qed.

Lemma IsAbs_Clean p : IsAbs (Clean p) = IsAbs p.
Proof.
  destruct (IsAbs p) eqn:A.
  - now rewrite (Clean_abs p A).
  - unfold Clean. destruct (p =? ""); [reflexivity |].
    unfold IsAbs in A. rewrite A. cbn [append].
    pose proof (fold_cleanStep_relative_elems (SplitSep p) []
                  (SplitSep_noSep p) (Forall_nil _)) as F.
    apply Forall_rev in F.
    destruct (rev (fold_left (cleanStep false) (SplitSep p) [])) as [| x r];
      [reflexivity |].
    inversion F as [| ? ? [NE NS] _]; subst.
    assert (X : IsAbs (JoinSep (x :: r)) = false).
    { destruct x as [| a x]; [discriminate |].
      apply noSep_cons in NS. destruct NS as [C _].
      destruct r; unfold IsAbs; cbn [JoinSep append HasPrefix];
        rewrite Ascii.eqb_sym, C; reflexivity. }
    destruct (JoinSep (x :: r) =? ""); [reflexivity | exact X].
Qed.

Lemma SplitSep_app_sep s t :
  SplitSep (s ++ String "/" t) = (SplitSep s ++ SplitSep t)%list.
Proof.
  induction s as [| c s IH]; [reflexivity |].
  simpl. rewrite IH.
  destruct (Ascii.eqb c "/"); [reflexivity |].
  destruct (SplitSep s) as [| e r] eqn:E; [| reflexivity].
  destruct s; simpl in E; [discriminate |].
  destruct (Ascii.eqb a "/"); [discriminate |].
  destruct (SplitSep s); discriminate.
Qed.

Lemma pathElems_child d x :
  isComponent x = true ->
  pathElems (d ++ String "/" x) = (pathElems d ++ [x])%list.
Proof.
  intro C. unfold pathElems.
  rewrite SplitSep_app_sep, fold_left_app.
  rewrite (SplitSep_last _ (isComponent_noSep _ C)).
  rewrite (fold_cleanStep_components true [x]); [| now constructor].
  simpl. reflexivity.
Qed.

Lemma underElems_child K k : forall ts,
  HasPrefix k ".." = false ->
  underElems (K ++ [k]) ts = true -> underElems K ts = true.
Proof.
  induction K as [| e K IH]; intros ts P H.
  - destruct ts as [| t ts]; [reflexivity |].
    simpl in *. apply andb_true_iff in H. destruct H as [E _].
    apply String.eqb_eq in E. subst. now rewrite P.
  - destruct ts as [| t ts]; [discriminate |].
    simpl in *. apply andb_true_iff in H. destruct H as [E H].
    rewrite E. simpl. now apply IH.
Qed.

End PathOrderFacts.

(** On absolute paths the containment test reads the cleaned elements. *)
Lemma isUnderPath_abs (p b : string) :
  Filepath.IsAbs p = true -> Filepath.IsAbs b = true ->
  isUnderPath p b = underElems (pathElems b) (pathElems p) /\
  isUnderPath p b = isUnderPath (Filepath.Clean p) (Filepath.Clean b).
Proof.
  intros Ap Ab.
  assert (E : isUnderPath p b
              = isUnderPath (Filepath.Clean p) (Filepath.Clean b)).
  { unfold isUnderPath.
    now rewrite (Rel_Clean b p (Clean_abs_idempotent b Ab)
                   (Clean_abs_idempotent p Ap)). }
  split; [| exact E].
  rewrite E, (Clean_abs p Ap), (Clean_abs b Ab).
  apply isUnderPath_absPath; apply pathElems_components.
Qed.

(** A path is only ever found under a base of its own kind, absolute or
    relative. *)
Lemma isUnderPath_same_kind (p q : string) :
  isUnderPath p q = true -> Filepath.IsAbs p = Filepath.IsAbs q.
Proof.
  intro H. unfold isUnderPath, Filepath.Rel in H.
  rewrite <- (IsAbs_Clean p), <- (IsAbs_Clean q).
  destruct (String.eqb_spec (Filepath.Clean p) (Filepath.Clean q)) as [-> | N];
    [reflexivity |].
  destruct (String.eqb_spec (Filepath.Clean q) ".") as [D | D].
  - rewrite D in *. unfold Filepath.IsAbs at 2. simpl.
    fold (Filepath.IsAbs (Filepath.Clean p)) in H.
    destruct (Filepath.IsAbs (Filepath.Clean p)); [discriminate | reflexivity].
  - fold (Filepath.IsAbs (Filepath.Clean p)) in H.
    fold (Filepath.IsAbs (Filepath.Clean q)) in H.
    destruct (Filepath.IsAbs (Filepath.Clean p)),
             (Filepath.IsAbs (Filepath.Clean q));
      try reflexivity; discriminate.
Qed.

(** X8: on absolute paths [isUnderPath] decides containment element by
    element: with both paths cleaned ([.], [..], doubled and trailing
    separators resolved), the path is under the base exactly when the
    elements of the base begin those of the path and the element that
    follows them, if there is one, does not begin with two dots.  So the
    answer does not change when either path is replaced by its cleaned
    form. *)
Theorem X8_isUnderPath_element_by_element (p b : string) :
  Filepath.IsAbs p = true -> Filepath.IsAbs b = true ->
  isUnderPath p b = underElems (pathElems b) (pathElems p) /\
  isUnderPath p b = isUnderPath (Filepath.Clean p) (Filepath.Clean b).
Proof.
  intros Ap Ab. now apply isUnderPath_abs.
Qed.

Lemma X8_isUnderPath_element_by_element_witness :
  isUnderPath "/var//lib/k0s/./kubelet/pods/" "/var/lib/x/../k0s/"
  = underElems (pathElems "/var/lib/x/../k0s/")
               (pathElems "/var//lib/k0s/./kubelet/pods/") /\
  isUnderPath "/var//lib/k0s/./kubelet/pods/" "/var/lib/x/../k0s/"
  = isUnderPath (Filepath.Clean "/var//lib/k0s/./kubelet/pods/")
                (Filepath.Clean "/var/lib/x/../k0s/").
Proof.
  apply (X8_isUnderPath_element_by_element
           "/var//lib/k0s/./kubelet/pods/" "/var/lib/x/../k0s/");
    reflexivity.
Defined.

(** X9: containment composes: when [a] is under [b] and [b] is under the
    absolute path [c], then [a] is under [c]. *)
Theorem X9_isUnderPath_transitive (a b c : string) :
  Filepath.IsAbs c = true ->
  isUnderPath a b = true -> isUnderPath b c = true ->
  isUnderPath a c = true.
Proof.
  intros Ac H1 H2.
  assert (Ab : Filepath.IsAbs b = true)
    by now rewrite (isUnderPath_same_kind b c H2).
  assert (Aa : Filepath.IsAbs a = true)
    by now rewrite (isUnderPath_same_kind a b H1).
  rewrite (proj1 (isUnderPath_abs a b Aa Ab)) in H1.
  rewrite (proj1 (isUnderPath_abs b c Ab Ac)) in H2.
  rewrite (proj1 (isUnderPath_abs a c Aa Ac)).
  now apply (underElems_trans _ (pathElems b)).
Qed.

Lemma X9_isUnderPath_transitive_witness :
  isUnderPath "/data/kubelet/pods/x" "/data" = true.
Proof.
  apply (X9_isUnderPath_transitive
           "/data/kubelet/pods/x" "/data/kubelet" "/data"); reflexivity.
Defined.

(** X10: two absolute paths that are under each other are the same
    directory: their cleaned forms are equal. *)
Theorem X10_isUnderPath_antisymmetric (a b : string) :
  Filepath.IsAbs b = true ->
  isUnderPath a b = true -> isUnderPath b a = true ->
  Filepath.Clean a = Filepath.Clean b.
Proof.
  intros Ab H1 H2.
  assert (Aa : Filepath.IsAbs a = true)
    by now rewrite (isUnderPath_same_kind a b H1).
  rewrite (proj1 (isUnderPath_abs a b Aa Ab)) in H1.
  rewrite (proj1 (isUnderPath_abs b a Ab Aa)) in H2.
  rewrite (Clean_abs a Aa), (Clean_abs b Ab). f_equal.
  now apply underElems_antisym.
Qed.

Lemma X10_isUnderPath_antisymmetric_witness :
  Filepath.Clean "/data/kubelet/../" = Filepath.Clean "//data".
Proof.
  apply (X10_isUnderPath_antisymmetric "/data/kubelet/../" "//data");
    reflexivity.
Defined.

(** X11: an absolute path is never under a relative base, nor a relative
    path under an absolute base: [filepath.Rel] fails and the test
    answers false. *)
Theorem X11_isUnderPath_mixed_kinds (p b : string) :
  Filepath.IsAbs p <> Filepath.IsAbs b -> isUnderPath p b = false.
Proof.
  intro N. destruct (isUnderPath p b) eqn:H; [| reflexivity].
  now apply isUnderPath_same_kind in H.
Qed.

Lemma X11_isUnderPath_mixed_kinds_witness :
  isUnderPath "data/kubelet" "/data" = false.
Proof.
  apply (X11_isUnderPath_mixed_kinds "data/kubelet" "/data"). discriminate.
Defined.

(** X12: when [dataDir] and [k0sVars.DataDir] are the same absolute path,
    the kubelet test of the loop adds nothing: whatever is under
    [filepath.Join(dataDir, "kubelet")] is under the data directory, so a
    record is owned exactly when it is under the data directory without
    being equal to it. *)
Theorem X12_kubelet_test_is_implied (cfg : Config) (v : MountPoint) :
  dataDir cfg = DataDir (k0sVars cfg) ->
  Filepath.IsAbs (dataDir cfg) = true ->
  (isUnderPath (Path v) (Filepath.Join [dataDir cfg; "kubelet"]) = true ->
   isUnderPath (Path v) (DataDir (k0sVars cfg)) = true) /\
  owned cfg v =
    negb (Path v =? DataDir (k0sVars cfg))
    && isUnderPath (Path v) (DataDir (k0sVars cfg)).
Proof.
  intros E A.
  assert (I : isUnderPath (Path v) (Filepath.Join [dataDir cfg; "kubelet"])
              = true ->
              isUnderPath (Path v) (DataDir (k0sVars cfg)) = true).
  { rewrite <- E. intro H.
    assert (J : Filepath.Join [dataDir cfg; "kubelet"]
                = Filepath.Clean (dataDir cfg ++ String "/" "kubelet")).
    { destruct (dataDir cfg); [discriminate | reflexivity]. }
    assert (AJ : Filepath.IsAbs (dataDir cfg ++ String "/" "kubelet") = true).
    { destruct (dataDir cfg); [discriminate | exact A]. }
    rewrite J in H.
    assert (AC : Filepath.IsAbs
                   (Filepath.Clean (dataDir cfg ++ String "/" "kubelet"))
                 = true) by now rewrite IsAbs_Clean.
    assert (Ap : Filepath.IsAbs (Path v) = true)
      by now rewrite (isUnderPath_same_kind _ _ H).
    rewrite (proj1 (isUnderPath_abs _ _ Ap AC)) in H.
    rewrite (proj1 (isUnderPath_abs _ _ Ap A)).
    assert (PE : pathElems (Filepath.Clean (dataDir cfg ++ String "/" "kubelet"))
                 = (pathElems (dataDir cfg) ++ ["kubelet"])%list).
    { rewrite (Clean_abs _ AJ).
      pose proof (pathElems_components (dataDir cfg ++ String "/" "kubelet"))
        as F.
      unfold pathElems at 1.
      rewrite (SplitSep_absPath _ F).
      rewrite <- (pathElems_child (dataDir cfg) "kubelet" eq_refl).
      destruct (pathElems (dataDir cfg ++ String "/" "kubelet")) as [| c cs]
        eqn:X; [reflexivity |].
      change (fold_left (Filepath.cleanStep true) ("" :: c :: cs) [])
        with (fold_left (Filepath.cleanStep true) (c :: cs) []).
      now rewrite (fold_cleanStep_components true _ [] F),
                  app_nil_r, rev_involutive. }
    rewrite PE in H.
    now apply (underElems_child _ "kubelet"). }
  split; [exact I |].
  unfold owned, classify.
  set (k := isUnderPath (Path v) (Filepath.Join [dataDir cfg; "kubelet"])) in *.
  destruct (Path v =? DataDir (k0sVars cfg)); [reflexivity |].
  destruct k.
  - rewrite (I eq_refl). reflexivity.
  - destruct (isUnderPath (Path v) (DataDir (k0sVars cfg))); reflexivity.
Qed.

Lemma X12_kubelet_test_is_implied_witness :
  (isUnderPath "/data/kubelet/pods/x" (Filepath.Join ["/data"; "kubelet"])
   = true ->
   isUnderPath "/data/kubelet/pods/x" "/data" = true) /\
  owned Fake.cfg (Fake.mkMount "/data/kubelet/pods/x") =
    negb ("/data/kubelet/pods/x" =? "/data")
    && isUnderPath "/data/kubelet/pods/x" "/data".
Proof.
  apply (X12_kubelet_test_is_implied Fake.cfg
           (Fake.mkMount "/data/kubelet/pods/x")); reflexivity.
Defined.

(** X13: [errorIsUnlinkat] compares the path of the error with the
    directory as strings, not as paths: an error is tolerated for one
    spelling of the directory at most, and a spelling that differs from
    the error's path, were it only by a trailing separator, is not
    tolerated. *)
Theorem X13_errorIsUnlinkat_exact_spelling (err : option error) (d1 d2 : string) :
  errorIsUnlinkat err d1 = true ->
  (errorIsUnlinkat err d2 = true -> d1 = d2) /\
  errorIsUnlinkat err (d1 ++ "/") = false.
Proof.
  unfold errorIsUnlinkat. destruct err as [e |]; [| discriminate].
  destruct (Errors.AsPathError e) as [[[op path] inner] |]; [| discriminate].
  intro H. apply andb_true_iff in H. destruct H as [P O].
  apply String.eqb_eq in P. subst path. split.
  - intro H. apply andb_true_iff in H. destruct H as [P _].
    now apply String.eqb_eq in P.
  - assert (N : (d1 =? d1 ++ "/") = false).
    { apply String.eqb_neq. intro E. symmetry in E. revert E.
      apply append_neq_self. discriminate. }
    now rewrite N.
Qed.

Lemma X13_errorIsUnlinkat_exact_spelling_witness :
  (errorIsUnlinkat (Some (PathError "unlinkat" "/data" Fake.EBUSY)) "/data/"
   = true -> "/data" = "/data/") /\
  errorIsUnlinkat (Some (PathError "unlinkat" "/data" Fake.EBUSY))
                  ("/data" ++ "/") = false.
Proof.
  apply (X13_errorIsUnlinkat_exact_spelling
           (Some (PathError "unlinkat" "/data" Fake.EBUSY)) "/data" "/data/").
  reflexivity.
Defined.

(* ================================================================= *)
(** ** The kubelet directory *)

Lemma attempts_app (t1 t2 : list event) :
  attempts (t1 ++ t2) = (attempts t1 ++ attempts t2)%list.
Proof.
  induction t1 as [| ev t1 IH]; [reflexivity |].
  destruct ev; simpl; now rewrite IH.
Qed.

Lemma map_filter_rev {A B : Type} (f : A -> B) (g : A -> bool) (l : list A) :
  map f (filter g (rev l)) = rev (map f (filter g l)).
Proof.
  induction l as [| x l IH]; [reflexivity |]. simpl.
  rewrite filter_app, map_app, IH. simpl.
  destruct (g x); simpl; [reflexivity | now rewrite app_nil_r].
Qed.

Lemma filter_map_comm {A B : Type} (f : A -> B) (g : B -> bool) (l : list A) :
  map f (filter (fun x => g (f x)) l) = filter g (map f l).
Proof.
  induction l as [| x l IH]; [reflexivity |]. simpl.
  destruct (g (f x)); simpl; now rewrite IH.
Qed.

(** When no lazy unmount fails, [Run] attempts the normal unmount of
    every owned record, last enumerated first. *)
Lemma Run_attempts_complete
    {World : Type} {os : OS World} (cfg : Config) (w : World) ms :
  mounter_List w = inr ms ->
  (forall p e, ~ In (EvUnmountLazy p (Some e)) (trace (Run cfg w))) ->
  attempts (trace (Run cfg w)) = rev (map Path (filter (owned cfg) ms)).
Proof.
  intros L NoFail.
  assert (Done : forall flag w1 t1 ds,
            unmountLoop cfg (rev ms) false w = (inr flag, w1, t1) ->
            attempts ds = [] ->
            attempts (EvList (inr ms) :: t1 ++ ds)
            = rev (map Path (filter (owned cfg) ms))).
  { intros flag w1 t1 ds U D. apply unmountLoop_run_eq in U.
    destruct (loopRun_attempts cfg _ _ _ _ _ _ U) as [_ Q].
    simpl. rewrite attempts_app, D, app_nil_r, (Q flag eq_refl).
    apply map_filter_rev. }
  destruct (Run_cases cfg w)
    as [(err & L' & E)
       | [(ms' & err & w1 & t1 & L' & U & E)
         | [(ms' & flag & w1 & t1 & e & w2 & L' & U & R & D & E)
           | (ms' & flag & w1 & t1 & r1 & w2 & r2 & w3
              & L' & U & R & D & R2 & E)]]];
    rewrite L in L'; try discriminate; injection L' as <-.
  - exfalso. apply unmountLoop_run_eq in U.
    destruct (loopRun_error cfg _ _ _ _ _ _ U err eq_refl) as (p & e & I).
    apply (NoFail p e). rewrite E. right. exact I.
  - rewrite E. unfold trace. simpl snd. now apply (Done flag w1).
  - rewrite E. unfold trace. simpl snd. now apply (Done flag w1).
Qed.

(** The directory joined from an absolute data directory. *)
Lemma Join_kubelet_abs (d : string) :
  Filepath.IsAbs d = true ->
  Filepath.Join [d; "kubelet"] = Filepath.Clean (d ++ "/" ++ "kubelet") /\
  Filepath.Join [d; "kubelet"] = absPath (pathElems d ++ ["kubelet"]).
Proof.
  intro A.
  assert (J : Filepath.Join [d; "kubelet"]
              = Filepath.Clean (d ++ "/" ++ "kubelet")).
  { destruct d; [discriminate | reflexivity]. }
  split; [exact J |]. rewrite J.
  assert (AJ : Filepath.IsAbs (d ++ "/" ++ "kubelet") = true).
  { destruct d; [discriminate | exact A]. }
  rewrite (Clean_abs _ AJ). f_equal.
  exact (pathElems_child d "kubelet" eq_refl).
Qed.

(** Containment of an absolute path in a cleaned absolute base. *)
Lemma isUnderPath_absPath_base (p : string) (cs : list string) :
  Filepath.IsAbs p = true ->
  Forall (fun c => isComponent c = true) cs ->
  isUnderPath p (absPath cs) = underElems cs (pathElems p).
Proof.
  intros A F.
  rewrite (proj2 (isUnderPath_abs p (absPath cs) A eq_refl)).
  rewrite (Clean_abs p A), (Clean_absPath cs F).
  apply isUnderPath_absPath; [exact F | apply pathElems_components].
Qed.

(** C9: the kubelet directory of the ownership test is not configured
    but computed from [dataDir]: for an absolute [dataDir] it is
    [filepath.Join(dataDir, "kubelet")], the cleaned [dataDir] followed by
    the one element [kubelet].  So ownership is decided by the two
    data-directory paths alone: a record is owned exactly when its path
    is absolute, is not [k0sVars.DataDir], and continues the elements of
    [dataDir/kubelet] or of [k0sVars.DataDir]; [Run] attempts the unmount
    of exactly these records, last enumerated first, when no lazy unmount
    fails; and configurations that agree on the two paths run the same
    loop. *)
Theorem C9_kubelet_dir_is_joined_from_data_dir :
  (forall cfg,
     Filepath.IsAbs (dataDir cfg) = true ->
     Filepath.Join [dataDir cfg; "kubelet"]
     = Filepath.Clean (dataDir cfg ++ "/" ++ "kubelet") /\
     Filepath.Join [dataDir cfg; "kubelet"]
     = absPath (pathElems (dataDir cfg) ++ ["kubelet"])) /\
  (forall cfg v,
     Filepath.IsAbs (dataDir cfg) = true ->
     Filepath.IsAbs (DataDir (k0sVars cfg)) = true ->
     owned cfg v
     = ownedByElems (dataDir cfg) (DataDir (k0sVars cfg)) (Path v)) /\
  (forall {World : Type} {os : OS World} cfg (w : World) ms,
     Filepath.IsAbs (dataDir cfg) = true ->
     Filepath.IsAbs (DataDir (k0sVars cfg)) = true ->
     mounter_List w = inr ms ->
     (forall p e, ~ In (EvUnmountLazy p (Some e)) (trace (Run cfg w))) ->
     attempts (trace (Run cfg w))
     = rev (filter (ownedByElems (dataDir cfg) (DataDir (k0sVars cfg)))
                   (map Path ms))) /\
  (forall cfg1 cfg2,
     dataDir cfg1 = dataDir cfg2 ->
     DataDir (k0sVars cfg1) = DataDir (k0sVars cfg2) ->
     forall {World : Type} {os : OS World} todo flag (w : World),
       unmountLoop cfg1 todo flag w = unmountLoop cfg2 todo flag w).
Proof.
  assert (O : forall cfg v,
     Filepath.IsAbs (dataDir cfg) = true ->
     Filepath.IsAbs (DataDir (k0sVars cfg)) = true ->
     owned cfg v
     = ownedByElems (dataDir cfg) (DataDir (k0sVars cfg)) (Path v)).
  { intros cfg v Ad AD. unfold owned, classify, ownedByElems.
    destruct (Path v =? DataDir (k0sVars cfg)); [reflexivity |].
    rewrite (proj2 (Join_kubelet_abs _ Ad)).
    destruct (Filepath.IsAbs (Path v)) eqn:Ap.
    - rewrite (isUnderPath_absPath_base (Path v) _ Ap).
      2:{ apply Forall_app. split; [apply pathElems_components |].
          now constructor. }
      rewrite (proj1 (isUnderPath_abs (Path v) _ Ap AD)).
      cbn [negb andb].
      destruct (_ || _); reflexivity.
    - assert (N : forall b, Filepath.IsAbs b = true ->
                    isUnderPath (Path v) b = false).
      { intros b Ab. destruct (isUnderPath (Path v) b) eqn:H; [| reflexivity].
        apply isUnderPath_same_kind in H. congruence. }
      rewrite (N (absPath (pathElems (dataDir cfg) ++ ["kubelet"])) eq_refl),
        (N _ AD). reflexivity. }
  split; [| split; [exact O | split]].
  - intros cfg A. now apply Join_kubelet_abs.
  - intros World os cfg w ms Ad AD L NoFail.
    rewrite (Run_attempts_complete cfg w ms L NoFail). f_equal.
    rewrite <- filter_map_comm. f_equal.
    apply filter_ext. intro v. now apply O.
  - intros cfg1 cfg2 E1 E2 World os todo.
    induction todo as [| v todo IH]; intros flag w; [reflexivity |].
    simpl. rewrite E1, E2.
    destruct (Path v =? DataDir (k0sVars cfg2)); [apply IH |].
    destruct (_ || _); [| apply IH].
    unfold bind. destruct (callUnmount (Path v) w) as [[[e1 |] w1] t1].
    + destruct (callUnmountLazy (Path v) w1) as [[[e2 |] w2] t2];
        [reflexivity | now rewrite IH].
    + now rewrite IH.
Qed.

Lemma C9_kubelet_dir_is_joined_from_data_dir_witness :
  attempts (trace (Run Fake.splitCfg Fake.splitNode))
  = ["/srv/k0s/containerd"; "/data/kubelet/pods/x"].
Proof.
  apply (proj1 (proj2 (proj2 C9_kubelet_dir_is_joined_from_data_dir))
           Fake.FakeWorld Fake.fakeOS Fake.splitCfg Fake.splitNode
           (Fake.mounts Fake.splitNode)).
  - reflexivity.
  - reflexivity.
  - reflexivity.
  - vm_compute. intros p e H.
    repeat (destruct H as [H | H]; [discriminate |]). exact H.
Defined.
